(** * Evergrow360 front-end: the authenticated-request client

    A shallow embedding of [class EvergrowAPI] of
    [front-end/shared/api-connection.js]: the credential store
    ([setTokens], [clearTokens], [isAuthenticated], [getCurrentUserId]),
    the refresh call ([refreshAccessToken]), the request pipeline
    ([makeRequest], [handleResponse]) and the proactive refresh scheduling
    ([setupTokenRefresh], called from the constructor).

    JavaScript objects used as dictionaries (JSON bodies, header objects,
    [localStorage]) are finite maps with string keys.  An [async] method is
    a resumption: it runs to its next [await] as a function on the state of
    the page and then waits for the event loop to resume it. *)

From Stdlib Require Import Ascii.
From stdpp Require Import gmap strings list fin_maps pretty.

Open Scope string_scope.
Open Scope Z_scope.
Open Scope list_scope.

(** ** JavaScript values *)

(** The values the client handles: what [JSON.parse] and [response.json()]
    produce, [undefined], and built-in function objects reached through a
    prototype ([JNative]).  Numbers are the integral ones (time stamps,
    status codes); fractional and infinite numbers are outside the model,
    and [NaN] appears only as a result of [ToNumber] (see [jsnum]). *)
#[warnings="-register-all"]
Inductive jsval : Type :=
| JUndefined
| JNull
| JBool (b : bool)
| JNum (z : Z)
| JStr (s : string)
| JArr (l : list jsval)
| JObj (m : gmap string jsval)
| JNative (name : string).

(** What a [throw] carries.  [Error_ v] is [new Error(v)], recorded with
    the constructor's argument; the other three are raised by the run time
    and the platform. *)
Inductive js_error : Type :=
| Error_ (message : jsval)
| TypeError_ (descr : string)
| SyntaxError_ (descr : string)
| DOMException_ (name : string).

(** Completion of an evaluation, and settlement of a promise. *)
Inductive outcome (A : Type) : Type :=
| Fulfilled (a : A)
| Rejected (e : js_error).
Arguments Fulfilled {A} a.
Arguments Rejected {A} e.

(** Result of [ToNumber]: [None] is [NaN]. *)
Definition jsnum : Type := option Z.

(** [!!v] of the source is [truthy v]. *)
Definition truthy (v : jsval) : bool :=
  match v with
  | JUndefined | JNull => false
  | JBool b => b
  | JNum z => negb (z =? 0)
  | JStr s => negb (String.eqb s "")
  | JArr _ | JObj _ | JNative _ => true
  end.

(** [a || b]. *)
Definition js_or (a b : jsval) : jsval := if truthy a then a else b.

(** The browser functions the client calls and whose code is not the
    client's: [atob], [JSON.parse], and the conversions of objects, arrays,
    numbers and strings that the language leaves to built-in methods. *)
Class Platform : Type := {
  atob : string -> outcome string;
  JSON_parse : string -> outcome jsval;
  (** [ToString] of a number, an array, an object or a function *)
  ToString_other : jsval -> string;
  (** [ToNumber] of a string, an array, an object or a function *)
  ToNumber_other : jsval -> jsnum;
  (** [v.key] for [v] a boolean, number, string, array or function:
      the property is looked up on the prototype *)
  proto_get : jsval -> string -> jsval
}.

Section Client.
Context `{Platform}.

(** [`${v}`] and [String(v)]. *)
Definition ToString (v : jsval) : string :=
  match v with
  | JStr s => s
  | JUndefined => "undefined"
  | JNull => "null"
  | JBool true => "true"
  | JBool false => "false"
  | _ => ToString_other v
  end.

Definition ToNumber (v : jsval) : jsnum :=
  match v with
  | JNum z => Some z
  | JUndefined => None
  | JNull => Some 0
  | JBool true => Some 1
  | JBool false => Some 0
  | _ => ToNumber_other v
  end.

(** [v.key], for the keys the client reads ([access_token], [message],
    [error], [exp], [sub]): none of them is on [Object.prototype], so an
    object without the key gives [undefined]; reading a property of [null]
    or [undefined] throws. *)
Definition get_prop (v : jsval) (key : string) : outcome jsval :=
  match v with
  | JUndefined | JNull => Rejected (TypeError_ "Cannot read properties")
  | JObj m => Fulfilled (default JUndefined (m !! key))
  | _ => Fulfilled (proto_get v key)
  end.

(** ** The state of the page *)

(** The two fields of the [EvergrowAPI] instance that change, its
    [baseURL], and the parts of the browser the instance writes to:
    [localStorage], [window.location.href], and the timers armed with
    [setTimeout] (each recorded by its delay in milliseconds; the only
    callback the client ever arms is the proactive refresh).
    [console.error] is not modelled. *)
Record world : Type := World {
  baseURL : string;
  token : jsval;
  refreshToken : jsval;
  localStorage : gmap string string;
  location_href : string;
  timers : list Z
}.

Definition set_token (v : jsval) (w : world) : world :=
  World (baseURL w) v (refreshToken w) (localStorage w) (location_href w) (timers w).
Definition set_refreshToken (v : jsval) (w : world) : world :=
  World (baseURL w) (token w) v (localStorage w) (location_href w) (timers w).
Definition set_localStorage (f : gmap string string -> gmap string string) (w : world) : world :=
  World (baseURL w) (token w) (refreshToken w) (f (localStorage w)) (location_href w) (timers w).
Definition set_location_href (h : string) (w : world) : world :=
  World (baseURL w) (token w) (refreshToken w) (localStorage w) h (timers w).
Definition setTimeout (delay : Z) (w : world) : world :=
  World (baseURL w) (token w) (refreshToken w) (localStorage w) (location_href w)
        (timers w ++ [delay]).

(** [localStorage.getItem(k)]: the stored string or [null]. *)
Definition getItem (k : string) (ls : gmap string string) : jsval :=
  match ls !! k with Some s => JStr s | None => JNull end.

(** [localStorage.setItem(k, v)] stores [String(v)]. *)
Definition setItem (k : string) (v : jsval) (ls : gmap string string) : gmap string string :=
  <[k := ToString v]> ls.

(** [localStorage.removeItem(k)]. *)
Definition removeItem (k : string) (ls : gmap string string) : gmap string string :=
  delete k ls.

(** ** Credential store *)

Definition setTokens (accessToken refreshToken' : jsval) (w : world) : world :=
  let w := set_token accessToken w in
  let w := set_refreshToken refreshToken' w in
  let w := set_localStorage (setItem "access_token" accessToken) w in
  set_localStorage (setItem "refresh_token" refreshToken') w.

Definition clearTokens (w : world) : world :=
  let w := set_token JNull w in
  let w := set_refreshToken JNull w in
  let w := set_localStorage (removeItem "access_token") w in
  set_localStorage (removeItem "refresh_token") w.

Definition isAuthenticated (w : world) : bool := truthy (token w).

(** [new Error(...)] arguments and other results below are computed by
    evaluations that may throw: sequencing of completions. *)
Definition and_then {A B : Type} (o : outcome A) (f : A -> outcome B) : outcome B :=
  match o with
  | Fulfilled a => f a
  | Rejected e => Rejected e
  end.

(** A synchronous [try { body } catch (error) { handler }]. *)
Definition try_sync {A : Type} (body : outcome A) (handler : js_error -> outcome A) : outcome A :=
  match body with
  | Fulfilled a => Fulfilled a
  | Rejected e => handler e
  end.

(** [s.split('.')]. *)
Fixpoint split_dot (s : string) : list string :=
  match s with
  | EmptyString => [EmptyString]
  | String c s' =>
      match split_dot s' with
      | piece :: pieces =>
          if Ascii.eqb c "."%char then EmptyString :: piece :: pieces
          else String c piece :: pieces
      | [] => [String c EmptyString]
      end
  end.

(** [JSON.parse(atob(tok.split('.')[1]))], the expression that both
    [setupTokenRefresh] and [getCurrentUserId] evaluate on [this.token].
    Only a string has a [split] method; a missing second piece is
    [undefined], which [atob] converts to the string "undefined". *)
Definition token_payload (tok : jsval) : outcome jsval :=
  match tok with
  | JStr s =>
      let piece := match split_dot s !! 1%nat with
                   | Some p => JStr p
                   | None => JUndefined
                   end in
      and_then (atob (ToString piece)) JSON_parse
  | _ => Rejected (TypeError_ "this.token.split is not a function")
  end.

(** Helper method to get current user ID from token. *)
Definition getCurrentUserId (w : world) : outcome jsval :=
  if negb (truthy (token w)) then Fulfilled JNull
  else
    try_sync
      (and_then (token_payload (token w)) (fun payload =>
       get_prop payload "sub"))
      (fun error => Fulfilled JNull).

(** ** Proactive refresh scheduling *)

(** [a * b] and [a - b] on numbers: [NaN] is absorbing.  The source
    computes in IEEE doubles; on integers these agree with the exact
    operations below as long as the operands and the result have a
    magnitude of at most 2^53 (time stamps in seconds and milliseconds are
    far below).  Beyond that a double rounds, so a statement that names the
    computed value carries that bound as a hypothesis. *)
Definition js_mul (a b : jsnum) : jsnum :=
  match a, b with Some x, Some y => Some (x * y) | _, _ => None end.
Definition js_sub (a b : jsnum) : jsnum :=
  match a, b with Some x, Some y => Some (x - y) | _, _ => None end.
(** [a > b]: false when either side is [NaN]. *)
Definition js_gt (a b : jsnum) : bool :=
  match a, b with Some x, Some y => x >? y | _, _ => false end.

(** [setTimeout(callback, delay)] with the delay as computed; the guard
    [refreshTime > now] has made it a number. *)
Definition arm_refresh_timer (delay : jsnum) (w : world) : world :=
  match delay with
  | Some d => setTimeout d w
  | None => w
  end.

(** [now] is the value of [Date.now()]. *)
Definition setupTokenRefresh (now : Z) (w : world) : outcome world :=
  if truthy (token w) then
    try_sync
      (and_then (token_payload (token w)) (fun payload =>
       and_then (get_prop payload "exp") (fun exp =>
       let expirationTime := js_mul (ToNumber exp) (Some 1000) in
       let refreshTime := js_sub expirationTime (Some (5 * 60 * 1000)) in
       if js_gt refreshTime (Some now) then
         Fulfilled (arm_refresh_timer (js_sub refreshTime (Some now)) w)
       else Fulfilled w)))
      (fun error => Fulfilled w)
  else Fulfilled w.

Definition getAPIBaseURL (hostname : string) : string :=
  if String.eqb hostname "localhost" || String.eqb hostname "127.0.0.1"
  then "http://localhost:5001"
  else "https://api.evergrow360.com".

(** [new EvergrowAPI()] in a page at [hostname] and [href], with the
    given [localStorage] and the refresh timers [tm] already armed, at
    time [now]. *)
Definition constructor (hostname href : string) (ls : gmap string string)
    (tm : list Z) (now : Z) : outcome world :=
  setupTokenRefresh now
    (World (getAPIBaseURL hostname)
           (getItem "access_token" ls)
           (getItem "refresh_token" ls)
           ls href tm).

(** ** The network and asynchronous methods *)

(** A [Response] as far as the client looks at it: [status],
    [statusText], [headers.get('content-type')] (a string or [null]) and
    the settlement of [response.json()]. *)
Record response : Type := Response {
  status : Z;
  statusText : string;
  content_type : option string;
  body_json : outcome jsval
}.

(** [response.ok]. *)
Definition ok (r : response) : bool := (200 <=? status r) && (status r <=? 299).

(** The [options] argument of [makeRequest] as the method reads it: the
    own enumerable properties of [options.headers], which is all that the
    spread [...options.headers] copies ([None] when [options.headers] is
    absent; see [own_properties] for the forms a caller can pass), and the
    other own properties of [options] ([method], [body], ...).  Keys are
    those of a JavaScript object: they are compared exactly, case
    included. *)
Record request_options : Type := RequestOptions {
  opt_headers : option (gmap string string);
  opt_fields : gmap string jsval
}.

(** The default [options = {}]. *)
Definition no_options : request_options := RequestOptions None ∅.

(** The second argument of [fetch]: its [headers] object and its other
    properties. *)
Record fetch_init : Type := FetchInit {
  init_fields : gmap string jsval;
  init_headers : gmap string string
}.

(** What [handleResponse] returns: the parsed body, or the [Response]
    itself when the body is not JSON. *)
Inductive reply : Type :=
| Parsed (data : jsval)
| Raw (r : response).

(** A running [async] method: finished in a state with a completion, or
    suspended at an [await] of [fetch(url, init)] or of
    [response.json()].  The continuation takes the settlement and the state
    of the page at the time it is resumed.  An [await] of the promise of
    another method of the client ([await this.refreshAccessToken()]) is
    not a suspension of its own: the caller goes on in the same turn of the
    event loop in which the callee finishes, before the next reply from
    the network is delivered. *)
Inductive task (A : Type) : Type :=
| Done (w : world) (r : outcome A)
| AwaitFetch (w : world) (url : string) (init : fetch_init)
    (k : outcome response -> world -> task A)
| AwaitJson (w : world) (r : response) (k : outcome jsval -> world -> task A).
#[global] Arguments Done {A} w r.
#[global] Arguments AwaitFetch {A} w url init k.
#[global] Arguments AwaitJson {A} w r k.

Definition async (A : Type) : Type := world -> task A.

Definition ret {A : Type} (a : A) : async A := fun w => Done w (Fulfilled a).
Definition throw {A : Type} (e : js_error) : async A := fun w => Done w (Rejected e).
(** An evaluation without [await] that may throw. *)
Definition eval {A : Type} (o : outcome A) : async A := fun w => Done w o.
Definition this : async world := fun w => Done w (Fulfilled w).
Definition update (f : world -> world) : async unit := fun w => Done (f w) (Fulfilled tt).
Definition fetch (url : string) (init : fetch_init) : async response :=
  fun w => AwaitFetch w url init (fun o w' => Done w' o).
Definition json (r : response) : async jsval :=
  fun w => AwaitJson w r (fun o w' => Done w' o).

Fixpoint bind_task {A B : Type} (t : task A) (f : A -> async B) : task B :=
  match t with
  | Done w (Fulfilled a) => f a w
  | Done w (Rejected e) => Done w (Rejected e)
  | AwaitFetch w url init k => AwaitFetch w url init (fun o w' => bind_task (k o w') f)
  | AwaitJson w r k => AwaitJson w r (fun o w' => bind_task (k o w') f)
  end.

Definition bind {A B : Type} (m : async A) (f : A -> async B) : async B :=
  fun w => bind_task (m w) f.

Fixpoint catch_task {A : Type} (t : task A) (handler : js_error -> async A) : task A :=
  match t with
  | Done w (Fulfilled a) => Done w (Fulfilled a)
  | Done w (Rejected e) => handler e w
  | AwaitFetch w url init k => AwaitFetch w url init (fun o w' => catch_task (k o w') handler)
  | AwaitJson w r k => AwaitJson w r (fun o w' => catch_task (k o w') handler)
  end.

(** [try { body } catch (error) { handler }] around [await]s. *)
Definition try_catch {A : Type} (body : async A) (handler : js_error -> async A) : async A :=
  fun w => catch_task (body w) handler.

Notation "'let*' x ':=' m 'in' k" := (bind m (fun x => k))
  (at level 10, x name, m at level 100, k at level 200).

(** [s.startsWith(p)] and [s.includes(p)]. *)
Fixpoint starts_with (p s : string) : bool :=
  match p, s with
  | EmptyString, _ => true
  | String a p', String b s' => Ascii.eqb a b && starts_with p' s'
  | String _ _, EmptyString => false
  end.

Fixpoint includes (s p : string) : bool :=
  starts_with p s ||
  match s with
  | EmptyString => false
  | String _ s' => includes s' p
  end.

(** ** Refresh *)

Definition login_page : string := "/app/auth/login.html".

Definition refresh_url (w : world) : string := baseURL w +:+ "/api/auth/refresh".

Definition refresh_init (w : world) : fetch_init :=
  FetchInit
    (<["credentials" := JStr "include"]>
      (<["mode" := JStr "cors"]> {["method" := JStr "POST"]}))
    (<["Authorization" := "Bearer " +:+ ToString (refreshToken w)]>
      {["Content-Type" := "application/json"]}).

Definition refreshAccessToken : async jsval :=
  try_catch
    (let* w := this in
     let* response := fetch (refresh_url w) (refresh_init w) in
     if ok response then
       let* data := json response in
       let* access_token := eval (get_prop data "access_token") in
       let* w' := this in
       let* _ := update (setTokens access_token (refreshToken w')) in
       let* access_token' := eval (get_prop data "access_token") in
       ret access_token'
     else throw (Error_ (JStr "Token refresh failed")))
    (fun error =>
       let* _ := update clearTokens in
       let* _ := update (set_location_href login_page) in
       throw error).

(** ** Request pipeline *)

Definition handleResponse (response : response) : async reply :=
  let contentType := content_type response in
  if match contentType with
     | Some ct => negb (String.eqb ct "") && includes ct "application/json"
     | None => false
     end
  then
    let* data := json response in
    if negb (ok response) then
      let* message := eval (get_prop data "message") in
      let* arg := (if truthy message then ret message
                   else let* error := eval (get_prop data "error") in
                        ret (js_or error (JStr "Request failed"))) in
      throw (Error_ arg)
    else ret (Parsed data)
  else
    if negb (ok response) then
      throw (Error_ (JStr ("HTTP " +:+ pretty (status response) +:+ ": "
                           +:+ statusText response)))
    else ret (Raw response).

(** [{'Content-Type': 'application/json', ...options.headers}]. *)
Definition base_headers (options : request_options) : gmap string string :=
  default ∅ (opt_headers options) ∪ {["Content-Type" := "application/json"]}.

(** [headers] after [if (this.token) headers['Authorization'] = ...]. *)
Definition request_headers (options : request_options) (w : world) : gmap string string :=
  if truthy (token w)
  then <["Authorization" := "Bearer " +:+ ToString (token w)]> (base_headers options)
  else base_headers options.

(** [{...options, headers, mode: 'cors', credentials: 'include'}]. *)
Definition first_init (options : request_options) (headers : gmap string string) : fetch_init :=
  FetchInit
    (<["credentials" := JStr "include"]> (<["mode" := JStr "cors"]> (opt_fields options)))
    headers.

(** [{...options, headers}]. *)
Definition retry_init (options : request_options) (headers : gmap string string) : fetch_init :=
  FetchInit (opt_fields options) headers.

Definition makeRequest (endpoint : string) (options : request_options) : async reply :=
  let* w0 := this in
  let url := baseURL w0 +:+ endpoint in
  let headers := request_headers options w0 in
  try_catch
    (let* response := fetch url (first_init options headers) in
     let* w1 := this in
     if (status response =? 401) && truthy (refreshToken w1) then
       let* _ := refreshAccessToken in
       let* w2 := this in
       let headers := <["Authorization" := "Bearer " +:+ ToString (token w2)]> headers in
       let* retryResponse := fetch url (retry_init options headers) in
       handleResponse retryResponse
     else handleResponse response)
    (fun error => throw error).

(** ** Running the client *)

(** One call of [fetch] as the network sees it. *)
Record fetch_call : Type := FetchCall {
  call_url : string;
  call_init : fetch_init
}.

(** The outcome of running one method alone on the page: the state it
    ends in, its completion ([None] while it still waits for the network),
    the [fetch] calls it made, in order, and the network replies it did not
    consume. *)
Record run_result (A : Type) : Type := RunResult {
  end_world : world;
  completion : option (outcome A);
  calls : list fetch_call;
  unused : list (outcome response)
}.
#[global] Arguments RunResult {A} end_world completion calls unused.
#[global] Arguments end_world {A} r.
#[global] Arguments completion {A} r.
#[global] Arguments calls {A} r.
#[global] Arguments unused {A} r.

(** A method running alone: each [fetch] settles with the next scripted
    reply, [response.json()] settles with the body of the response, and
    nothing else touches the page while the method waits. *)
Fixpoint run_task {A : Type} (t : task A) (net : list (outcome response)) : run_result A :=
  match t with
  | Done w r => RunResult w (Some r) [] net
  | AwaitFetch w url init k =>
      match net with
      | [] => RunResult w None [FetchCall url init] []
      | o :: net' =>
          let r := run_task (k o w) net' in
          RunResult (end_world r) (completion r) (FetchCall url init :: calls r) (unused r)
      end
  | AwaitJson w r k => run_task (k (body_json r) w) net
  end.

Definition run {A : Type} (m : async A) (w : world) (net : list (outcome response)) : run_result A :=
  run_task (m w) net.

(** Several methods on one page.  The event loop runs one continuation at
    a time, to its next [await]; all of them share the state of the page. *)
Inductive slot (A : Type) : Type :=
| Settled (r : outcome A)
| OnFetch (k : outcome response -> world -> task A)
| OnJson (r : response) (k : outcome jsval -> world -> task A).
#[global] Arguments Settled {A} r.
#[global] Arguments OnFetch {A} k.
#[global] Arguments OnJson {A} r k.

Record page (A : Type) : Type := Page {
  shared : world;
  slots : list (slot A);
  log : list fetch_call
}.
#[global] Arguments Page {A} shared slots log.
#[global] Arguments shared {A} p.
#[global] Arguments slots {A} p.
#[global] Arguments log {A} p.

(** A task that has run to its next [await]: the state it leaves, the
    slot it occupies, and the [fetch] call it has just issued, if any. *)
Definition park {A : Type} (t : task A) : world * slot A * list fetch_call :=
  match t with
  | Done w r => (w, Settled r, [])
  | AwaitFetch w url init k => (w, OnFetch k, [FetchCall url init])
  | AwaitJson w r k => (w, OnJson r k, [])
  end.

(** Calling an [async] method: it runs synchronously to its first
    [await]. *)
Definition spawn {A : Type} (m : async A) (p : page A) : page A :=
  let '(w, s, c) := park (m (shared p)) in
  Page w (slots p ++ [s]) (log p ++ c).

Inductive event : Type :=
| Reply (i : nat) (o : outcome response)
| BodyRead (i : nat).

(** The event loop resumes slot [i]; an event for a slot that does not
    wait for it leaves the page as it is. *)
Definition deliver {A : Type} (ev : event) (p : page A) : page A :=
  match ev with
  | Reply i o =>
      match slots p !! i with
      | Some (OnFetch k) =>
          let '(w, s, c) := park (k o (shared p)) in
          Page w (<[i := s]> (slots p)) (log p ++ c)
      | _ => p
      end
  | BodyRead i =>
      match slots p !! i with
      | Some (OnJson r k) =>
          let '(w, s, c) := park (k (body_json r) (shared p)) in
          Page w (<[i := s]> (slots p)) (log p ++ c)
      | _ => p
      end
  end.

Definition play {A : Type} (evs : list event) (p : page A) : page A :=
  foldl (fun p ev => deliver ev p) p evs.

(** The number of calls to the refresh endpoint in a log. *)
Definition refresh_calls (w : world) (l : list fetch_call) : nat :=
  length (filter (fun c => call_url c = refresh_url w) l).

(** Composition of runs: what [try_catch] does to the result of a method
    running alone. *)
Definition prepend {A : Type} (cs : list fetch_call) (r : run_result A) : run_result A :=
  RunResult (end_world r) (completion r) (cs ++ calls r) (unused r).

Definition catch_run {A : Type} (r : run_result A) (handler : js_error -> async A) : run_result A :=
  match completion r with
  | Some (Rejected e) => prepend (calls r) (run (handler e) (end_world r) (unused r))
  | _ => r
  end.

(** The first [fetch] of [makeRequest], and the continuation that waits
    for its reply. *)
Definition first_call (endpoint : string) (options : request_options) (w : world) : fetch_call :=
  FetchCall (baseURL w +:+ endpoint) (first_init options (request_headers options w)).

Definition after_first (endpoint : string) (options : request_options) (w : world)
    : outcome response -> world -> task reply :=
  match makeRequest endpoint options w with
  | AwaitFetch _ _ _ k => k
  | _ => fun _ w' => Done w' (Rejected (TypeError_ "not waiting"))
  end.

Definition refresh_call (w : world) : fetch_call :=
  FetchCall (refresh_url w) (refresh_init w).

(** Requests issued one after the other before the event loop runs
    again. *)
Definition spawn_all (reqs : list (string * request_options)) (p : page reply) : page reply :=
  foldl (fun p q => spawn (makeRequest q.1 q.2) p) p reqs.

(** Replies to the first [fetch] of requests: [(i, r)] answers the
    request in slot [i] with [r]. *)
Definition replies (evs : list (nat * response)) : list event :=
  map (fun e => Reply e.1 (Fulfilled e.2)) evs.

End Client.

(** ** The rest of the client: session methods and page helpers *)

(** [JSON.stringify], the one further browser function that [register]
    and [login] call: a string, or [undefined] for a value that has no
    JSON text; it throws on a cyclic value. *)
Class Serializer : Type := {
  JSON_stringify : jsval -> outcome jsval
}.

Section Session.
Context `{Platform} `{Serializer}.

Notation "'let*' x ':=' m 'in' k" := (bind m (fun x => k))
  (at level 10, x name, m at level 100, k at level 200).

(** [try { body } finally { finalizer }]: the finalizer runs on every
    completion of the body; the completion of the body stands unless the
    finalizer throws. *)
Fixpoint finally_task {A : Type} (t : task A) (finalizer : async unit) : task A :=
  match t with
  | Done w r => bind_task (finalizer w) (fun _ w' => Done w' r)
  | AwaitFetch w url init k =>
      AwaitFetch w url init (fun o w' => finally_task (k o w') finalizer)
  | AwaitJson w r k => AwaitJson w r (fun o w' => finally_task (k o w') finalizer)
  end.

Definition try_finally {A : Type} (body : async A) (finalizer : async unit) : async A :=
  fun w => finally_task (body w) finalizer.

(** [response.key] on what [makeRequest] returned: a property of the
    parsed body, or [undefined] on a [Response] object, which has none of
    the keys the client reads. *)
Definition reply_prop (response : reply) (key : string) : outcome jsval :=
  match response with
  | Parsed data => get_prop data key
  | Raw _ => Fulfilled JUndefined
  end.

(** [{ method: 'POST', body: ... }]. *)
Definition post_options (body : jsval) : request_options :=
  RequestOptions None (<["body" := body]> {["method" := JStr "POST"]}).

Definition register (userData : jsval) : async reply :=
  try_catch
    (let* body := eval (JSON_stringify userData) in
     let* response := makeRequest "/api/auth/register" (post_options body) in
     let* access_token := eval (reply_prop response "access_token") in
     let* _ := (if truthy access_token then
                  let* access_token' := eval (reply_prop response "access_token") in
                  let* refresh_token := eval (reply_prop response "refresh_token") in
                  update (setTokens access_token' refresh_token)
                else ret tt) in
     ret response)
    (fun error => throw error).

Definition login (credentials : jsval) : async reply :=
  try_catch
    (let* body := eval (JSON_stringify credentials) in
     let* response := makeRequest "/api/auth/login" (post_options body) in
     let* access_token := eval (reply_prop response "access_token") in
     let* _ := (if truthy access_token then
                  let* access_token' := eval (reply_prop response "access_token") in
                  let* refresh_token := eval (reply_prop response "refresh_token") in
                  update (setTokens access_token' refresh_token)
                else ret tt) in
     ret response)
    (fun error => throw error).

Definition logout : async unit :=
  try_finally
    (try_catch
       (let* _ := makeRequest "/api/auth/logout"
                    (RequestOptions None {["method" := JStr "POST"]}) in
        ret tt)
       (fun error => ret tt))
    (let* _ := update clearTokens in
     update (set_location_href login_page)).

(** What [bind] does to the result of a method running alone. *)
Definition then_run {A B : Type} (r : run_result A) (f : A -> async B) : run_result B :=
  match completion r with
  | Some (Fulfilled a) => prepend (calls r) (run (f a) (end_world r) (unused r))
  | Some (Rejected e) => RunResult (end_world r) (Some (Rejected e)) (calls r) (unused r)
  | None => RunResult (end_world r) None (calls r) (unused r)
  end.

(** [EvergrowFrontend.checkAuth()] on a page whose
    [window.location.pathname] is [pathname]. *)
Definition checkAuth (pathname : string) (w : world) : world * bool :=
  if negb (isAuthenticated w) then
    if negb (includes pathname "/auth/") then
      (set_location_href login_page w, false)
    else (w, true)
  else (w, true).

(** The condition under which [handleResponse] reads the body as JSON. *)
Definition declares_json (r : response) : bool :=
  match content_type r with
  | Some ct => negb (String.eqb ct "") && includes ct "application/json"
  | None => false
  end.

(** A string without a dot. *)
Fixpoint no_dot (s : string) : bool :=
  match s with
  | EmptyString => true
  | String c s' => negb (Ascii.eqb c ".") && no_dot s'
  end.

(** *** Form elements

    A form as [showLoading] and [hideLoading] see it: its class list and
    the first [button[type="submit"]] below it, if any, with the button's
    [disabled] flag, its text and its [data-original-text] attribute. *)
Record button : Type := Button {
  disabled : bool;
  textContent : string;
  data_original_text : option string
}.

Record form_element : Type := FormElement {
  classList : gset string;
  submit_button : option button
}.

Definition showLoading (element : form_element) : form_element :=
  FormElement
    ({["loading"]} ∪ classList element)
    (match submit_button element with
     | Some submitButton =>
         Some (Button true "Loading..." (data_original_text submitButton))
     | None => None
     end).

(** [getAttribute('data-original-text') || 'Submit']. *)
Definition original_text_or_default (b : button) : string :=
  match data_original_text b with
  | Some t => if String.eqb t "" then "Submit" else t
  | None => "Submit"
  end.

Definition hideLoading (element : form_element) : form_element :=
  FormElement
    (classList element ∖ {["loading"]})
    (match submit_button element with
     | Some submitButton =>
         Some (Button false (original_text_or_default submitButton)
                      (data_original_text submitButton))
     | None => None
     end).

(** What the [DOMContentLoaded] handler does to each submit button:
    [button.setAttribute('data-original-text', button.textContent)]. *)
Definition store_original_text (b : button) : button :=
  Button (disabled b) (textContent b) (Some (textContent b)).

End Session.

(** ** The headers a caller passes

    The forms [options.headers] can take for [fetch]: absent, a plain
    object, a [Headers] instance, or an array of name-value pairs. *)
Inductive headers_init : Type :=
| NoHeaders
| HeadersObject (h : gmap string string)
| HeadersInstance (entries : list (string * string))
| HeadersPairs (pairs : list (string * string)).

(** What [...options.headers] copies, as [fetch] will read it.  A plain
    object gives its entries.  A [Headers] instance keeps its entries in
    an internal list and has no own enumerable property, so it gives
    nothing.  An array gives one property per index, whose value is the
    pair, read by [fetch] as the string "name,value". *)
Definition own_properties (hi : headers_init) : option (gmap string string) :=
  match hi with
  | NoHeaders => None
  | HeadersObject h => Some h
  | HeadersInstance _ => Some ∅
  | HeadersPairs pairs =>
      Some (list_to_map (imap (fun (i : nat) p => (pretty i, p.1 +:+ "," +:+ p.2)) pairs))
  end.

Definition options_with (hi : headers_init) (fields : gmap string jsval) : request_options :=
  RequestOptions (own_properties hi) fields.

(** Header names are compared by HTTP without regard to the case of
    ASCII letters. *)
Definition lower_ascii (c : ascii) : ascii :=
  let n := nat_of_ascii c in
  if (65 <=? n)%nat && (n <=? 90)%nat then ascii_of_nat (n + 32) else c.

Fixpoint lower (s : string) : string :=
  match s with
  | EmptyString => EmptyString
  | String c s' => String (lower_ascii c) (lower s')
  end.

Definition names_header (name key : string) : bool :=
  String.eqb (lower key) (lower name).

(** ** A concrete platform and page

    The inputs of the examples below.  The platform decodes two access
    tokens as the browser does: the second piece of [token_A] is the
    base64 text of the object with [exp] 1000 and [sub] "u42", that of
    [token_B] the base64 text of the object with [exp] 4000. *)

Definition dquote : string := String (ascii_of_nat 34) EmptyString.

Definition payload_text_A : string :=
  "{" +:+ dquote +:+ "exp" +:+ dquote +:+ ":1000," +:+ dquote +:+ "sub" +:+ dquote
      +:+ ":" +:+ dquote +:+ "u42" +:+ dquote +:+ "}".
Definition payload_text_B : string :=
  "{" +:+ dquote +:+ "exp" +:+ dquote +:+ ":4000}".

Definition token_A : string := "h.eyJleHAiOjEwMDAsInN1YiI6InU0MiJ9.s".
Definition token_B : string := "h.eyJleHAiOjQwMDB9.s".

(** The payloads of [token_A] and [token_B]. *)
Definition payload_A : jsval := JObj (<["sub" := JStr "u42"]> {["exp" := JNum 1000]}).
Definition payload_B : jsval := JObj {["exp" := JNum 4000]}.

Definition demo_platform : Platform := {|
  atob s :=
    if String.eqb s "eyJleHAiOjEwMDAsInN1YiI6InU0MiJ9" then Fulfilled payload_text_A
    else if String.eqb s "eyJleHAiOjQwMDB9" then Fulfilled payload_text_B
    else Rejected (DOMException_ "InvalidCharacterError");
  JSON_parse s :=
    if String.eqb s payload_text_A
    then Fulfilled payload_A
    else if String.eqb s payload_text_B
    then Fulfilled payload_B
    else Rejected (SyntaxError_ "Unexpected token");
  ToString_other v := match v with JNum z => pretty z | _ => "[object Object]" end;
  ToNumber_other v := None;
  proto_get v key := JUndefined
|}.

(** A page with both credentials stored and mirrored. *)
Definition demo_storage : gmap string string :=
  <["refresh_token" := "R0"]> {["access_token" := token_A]}.

Definition demo_world : world :=
  World "https://api.evergrow360.com" (JStr token_A) (JStr "R0") demo_storage
        "/app/dashboard.html" [].

(** The same page without a refresh credential. *)
Definition demo_world_no_refresh : world :=
  World "https://api.evergrow360.com" (JStr token_A) JNull
        {["access_token" := token_A]} "/app/dashboard.html" [].

Definition unauthorized : response :=
  Response 401 "UNAUTHORIZED" (Some "application/json")
           (Fulfilled (JObj {["error" := JStr "Token has expired"]})).

Definition refreshed (access : string) : response :=
  Response 200 "OK" (Some "application/json")
           (Fulfilled (JObj {["access_token" := JStr access]})).

Definition profile_ok : response :=
  Response 200 "OK" (Some "application/json")
           (Fulfilled (JObj {["name" := JStr "Ada"]})).

Definition demo_options : request_options :=
  RequestOptions (Some {["Authorization" := "Basic abc"]}) {["method" := JStr "GET"]}.

(** Two requests issued together, and an order in which the event loop
    resumes them: both first replies are 401, then each refresh and each
    retry succeeds. *)
Definition demo_requests : list (string * request_options) :=
  [("/api/user/profile", no_options); ("/api/coaching/plans", no_options)].

Definition demo_schedule : list event :=
  [Reply 0 (Fulfilled unauthorized); Reply 1 (Fulfilled unauthorized);
   Reply 0 (Fulfilled (refreshed "A1")); BodyRead 0;
   Reply 1 (Fulfilled (refreshed "A2")); BodyRead 1;
   Reply 0 (Fulfilled profile_ok); BodyRead 0;
   Reply 1 (Fulfilled profile_ok); BodyRead 1].

(** A serializer for the examples: it gives the JSON text of an object
    with string fields [email] and [password], and is left undefined on
    other values. *)
Definition demo_serializer : Serializer := {|
  JSON_stringify v :=
    match v with
    | JObj m =>
        match m !! "email", m !! "password" with
        | Some (JStr e), Some (JStr p) =>
            Fulfilled (JStr ("{" +:+ dquote +:+ "email" +:+ dquote +:+ ":" +:+ dquote
                             +:+ e +:+ dquote +:+ "," +:+ dquote +:+ "password"
                             +:+ dquote +:+ ":" +:+ dquote +:+ p +:+ dquote +:+ "}"))
        | _, _ => Fulfilled JUndefined
        end
    | _ => Fulfilled JUndefined
    end
|}.

Definition demo_credentials : jsval :=
  JObj (<["password" := JStr "Secret123"]> {["email" := JStr "ada@example.com"]}).

Definition demo_credentials_text : jsval :=
  JStr ("{" +:+ dquote +:+ "email" +:+ dquote +:+ ":" +:+ dquote
        +:+ "ada@example.com" +:+ dquote +:+ "," +:+ dquote +:+ "password"
        +:+ dquote +:+ ":" +:+ dquote +:+ "Secret123" +:+ dquote +:+ "}").

Definition session_body : jsval :=
  JObj (<["refresh_token" := JStr "R1"]> {["access_token" := JStr token_B]}).

Definition session_reply : response :=
  Response 200 "OK" (Some "application/json") (Fulfilled session_body).

Definition pending_reply : response :=
  Response 200 "OK" (Some "application/json")
           (Fulfilled (JObj {["message" := JStr "Check your inbox"]})).

Definition invalid_credentials : response :=
  Response 401 "UNAUTHORIZED" (Some "application/json")
           (Fulfilled (JObj {["message" := JStr "Invalid credentials"]})).

Definition server_error : response :=
  Response 500 "INTERNAL SERVER ERROR" (Some "text/html")
           (Rejected (SyntaxError_ "Unexpected token")).

Definition empty_refresh_reply : response :=
  Response 200 "OK" (Some "application/json; charset=utf-8") (Fulfilled (JObj ∅)).

Definition demo_form : form_element :=
  FormElement {["auth-form"]} (Some (Button false "Sign in" (Some "Sign in"))).

(** A platform for a credential whose payload is the JSON text of a
    string: the second piece of [token_S] is the base64 text of the quoted
    word abc.  Reading [sub] of a string finds the built-in method
    [String.prototype.sub]. *)
Definition payload_text_S : string := dquote +:+ "abc" +:+ dquote.

Definition token_S : string := "h.ImFiYyI=.s".

Definition string_payload_platform : Platform := {|
  atob s :=
    if String.eqb s "ImFiYyI=" then Fulfilled payload_text_S
    else Rejected (DOMException_ "InvalidCharacterError");
  JSON_parse s :=
    if String.eqb s payload_text_S then Fulfilled (JStr "abc")
    else Rejected (SyntaxError_ "Unexpected token");
  ToString_other v := match v with JNum z => pretty z | _ => "[object Object]" end;
  ToNumber_other v := None;
  proto_get v key :=
    match v with
    | JStr _ => if String.eqb key "sub" then JNative "String.prototype.sub" else JUndefined
    | _ => JUndefined
    end
|}.

Definition malformed_unauthorized : response :=
  Response 401 "UNAUTHORIZED" (Some "application/json")
           (Rejected (SyntaxError_ "Unexpected end of JSON input")).

(** * Properties *)

Section ClientFacts.
Context `{Platform}.

(** ** Credential store *)

(** C7: [clearTokens] is idempotent, and after it [isAuthenticated] is
    false, the access credential is [null] in memory and absent from
    [localStorage] (so is the refresh credential). *)
Theorem clearTokens_idempotent (w : world) :
  clearTokens (clearTokens w) = clearTokens w ∧
  isAuthenticated (clearTokens w) = false ∧
  token (clearTokens w) = JNull ∧
  getItem "access_token" (localStorage (clearTokens w)) = JNull ∧
  refreshToken (clearTokens w) = JNull ∧
  getItem "refresh_token" (localStorage (clearTokens w)) = JNull.
Proof.
  destruct w as [b t r ls h tm].
  unfold clearTokens, isAuthenticated, getItem, removeItem,
    set_localStorage, set_refreshToken, set_token; cbn.
  repeat split.
  - f_equal. apply map_eq; intros k.
    rewrite !lookup_delete.
    repeat case_decide; done.
  - rewrite lookup_delete_ne by done. by rewrite lookup_delete_eq.
  - by rewrite lookup_delete_eq.
Qed.

(** C8, as the code has it: [getCurrentUserId] never throws and is a
    function of the stored access credential alone (it makes no request).
    It returns [null] when no credential is stored and when a step of the
    decoding throws.  Otherwise it returns [payload.sub] as it finds it,
    whatever the payload is: the [sub] entry of an object ([undefined] when
    there is none) and, for a payload that is not an object (a JSON string,
    number, boolean or array), the property [sub] of its prototype. *)
Theorem getCurrentUserId_never_raises (w : world) :
  (∃ v, getCurrentUserId w = Fulfilled v) ∧
  (truthy (token w) = false → getCurrentUserId w = Fulfilled JNull) ∧
  (∀ e, token_payload (token w) = Rejected e → getCurrentUserId w = Fulfilled JNull) ∧
  (∀ payload e, token_payload (token w) = Fulfilled payload →
     get_prop payload "sub" = Rejected e → getCurrentUserId w = Fulfilled JNull) ∧
  (∀ payload sub, truthy (token w) = true →
     token_payload (token w) = Fulfilled payload →
     get_prop payload "sub" = Fulfilled sub → getCurrentUserId w = Fulfilled sub) ∧
  (∀ w', token w' = token w → getCurrentUserId w' = getCurrentUserId w) ∧
  (∀ payload, truthy (token w) = true →
     token_payload (token w) = Fulfilled payload →
     getCurrentUserId w =
       Fulfilled match payload with
                 | JNull | JUndefined => JNull
                 | JObj m => default JUndefined (m !! "sub")
                 | _ => proto_get payload "sub"
                 end).
Proof.
  unfold getCurrentUserId.
  split_and!.
  - destruct (truthy (token w)); cbn; [|eauto].
    destruct (token_payload (token w)) as [p|]; cbn; [|eauto].
    destruct (get_prop p "sub"); cbn; eauto.
  - by intros ->.
  - intros e ->. by destruct (truthy (token w)).
  - intros p e -> Hsub. cbn. rewrite Hsub. by destruct (truthy (token w)).
  - intros p v -> -> Hsub. cbn. by rewrite Hsub.
  - by intros w' ->.
  - intros p -> ->. cbn. by destruct p.
Qed.

(** ** Proactive refresh scheduling *)

Lemma setupTokenRefresh_cases (now : Z) (w : world) :
  setupTokenRefresh now w = Fulfilled w ∨
  ∃ d, 0 < d ∧ setupTokenRefresh now w = Fulfilled (setTimeout d w).
Proof.
  unfold setupTokenRefresh.
  destruct (truthy (token w)); [|by left].
  destruct (token_payload (token w)) as [p|]; cbn; [|by left].
  destruct (get_prop p "exp") as [v|]; cbn; [|by left].
  destruct (ToNumber v) as [e|]; cbn; [|by left].
  destruct (Z.gtb_spec (e * 1000 - 5 * 60 * 1000) now); [|by left].
  right. exists (e * 1000 - 5 * 60 * 1000 - now). split; [lia|done].
Qed.

(** C4, as the code has it: when the trigger time (expiry minus five
    minutes) is at or before the current time, [setupTokenRefresh] does
    nothing: it arms no timer and starts no refresh.  Every timer it does
    arm has a positive delay. *)
Theorem setupTokenRefresh_skips_past_trigger (now : Z) (w : world) :
  (∀ payload exp e,
     token_payload (token w) = Fulfilled payload →
     get_prop payload "exp" = Fulfilled exp →
     ToNumber exp = Some e →
     e * 1000 - 5 * 60 * 1000 ≤ now →
     setupTokenRefresh now w = Fulfilled w) ∧
  (setupTokenRefresh now w = Fulfilled w ∨
   ∃ d, 0 < d ∧ setupTokenRefresh now w = Fulfilled (setTimeout d w)).
Proof.
  split; [|apply setupTokenRefresh_cases].
  intros p v e Hp Hv He Hle.
  unfold setupTokenRefresh.
  destruct (truthy (token w)); [|done].
  rewrite Hp; cbn. rewrite Hv; cbn. rewrite He; cbn.
  by destruct (Z.gtb_spec (e * 1000 - 5 * 60 * 1000) now); [lia|].
Qed.

(** C5, as the code has it: the refresh timer is armed only by the
    constructor, at most once per instance, for the credential found in
    [localStorage]; [setTokens] and [clearTokens] neither arm nor cancel a
    timer.  Every delay armed is positive; its value is the time left to
    the trigger, [exp * 1000 - 300000 - now], for a clock that is not
    negative and an expiry of at most 2^53 milliseconds, the range in
    which the source's floating-point arithmetic is exact. *)
Theorem scheduling_only_at_construction :
  (∀ a r w, timers (setTokens a r w) = timers w) ∧
  (∀ w, timers (clearTokens w) = timers w) ∧
  (∀ hostname href ls tm now,
     ∃ w', constructor hostname href ls tm now = Fulfilled w' ∧
           token w' = getItem "access_token" ls ∧
           (timers w' = tm ∨ ∃ d, 0 < d ∧ timers w' = tm ++ [d])) ∧
  (∀ hostname href ls tm now payload exp e,
     truthy (getItem "access_token" ls) = true →
     token_payload (getItem "access_token" ls) = Fulfilled payload →
     get_prop payload "exp" = Fulfilled exp →
     ToNumber exp = Some e →
     0 ≤ now → e * 1000 ≤ 2 ^ 53 →
     now < e * 1000 - 5 * 60 * 1000 →
     ∃ w', constructor hostname href ls tm now = Fulfilled w' ∧
           timers w' = tm ++ [e * 1000 - 5 * 60 * 1000 - now]).
Proof.
  split; [|split; [|split]].
  - by intros a r w; destruct w.
  - by intros w; destruct w.
  - intros hostname href ls tm now. unfold constructor.
    match goal with |- context [setupTokenRefresh now ?w] =>
      destruct (setupTokenRefresh_cases now w) as [->|(d & Hd & ->)] end.
    + eexists; repeat split; eauto.
    + eexists; repeat split; cbn; eauto.
  - intros hostname href ls tm now p v e Ht Hp Hv He _ _ Hlt.
    unfold constructor, setupTokenRefresh; cbn.
    rewrite Ht, Hp; cbn. rewrite Hv; cbn. rewrite He; cbn.
    destruct (Z.gtb_spec (e * 1000 - 5 * 60 * 1000) now); [|lia].
    by eexists.
Qed.

(** ** Runs of asynchronous methods *)

(** [try_catch] runs its body, then the handler on what is left of the
    network script. *)
Lemma prepend_nil {A : Type} (r : run_result A) : prepend [] r = r.
Proof. by destruct r. Qed.

Lemma run_catch_task {A : Type} (t : task A) (h : js_error → async A)
    (net : list (outcome response)) :
  run_task (catch_task t h) net = catch_run (run_task t net) h.
Proof.
  revert net. induction t as [w [a|e]|w url init k IH|w r k IH]; intros net; cbn.
  - done.
  - unfold catch_run; cbn. by rewrite prepend_nil.
  - destruct net as [|o net]; [done|].
    rewrite IH. unfold catch_run; cbn.
    by destruct (run_task (k o w) net) as [w' [[a|e]|] cs un].
  - apply IH.
Qed.

(** A handler that only rethrows, as the one of [makeRequest] does,
    changes nothing. *)
Lemma catch_run_rethrow {A : Type} (r : run_result A) :
  catch_run r (λ e, throw e) = r.
Proof.
  destruct r as [w [[a|e]|] cs un]; unfold catch_run; cbn; try done.
  unfold prepend; cbn. by rewrite app_nil_r.
Qed.

Lemma run_task_rethrow {A : Type} (t : task A) (net : list (outcome response)) :
  run_task (catch_task t (λ e, throw e)) net = run_task t net.
Proof. rewrite run_catch_task. apply catch_run_rethrow. Qed.

(** The two ways a refresh ends once its call is answered. *)
Lemma run_refresh_cases (w : world) (o : outcome response)
    (net : list (outcome response)) :
  (∃ a, run refreshAccessToken w (o :: net) =
        RunResult (setTokens a (refreshToken w) w) (Some (Fulfilled a)) [refresh_call w] net) ∨
  (∃ err, run refreshAccessToken w (o :: net) =
        RunResult (set_location_href login_page (clearTokens w)) (Some (Rejected err))
                  [refresh_call w] net).
Proof.
  unfold refreshAccessToken, run, try_catch, bind, this, fetch, eval. cbn.
  destruct o as [r|e]; cbn; [|eauto].
  destruct (ok r); cbn; [|eauto].
  destruct (body_json r) as [data|e]; cbn; [|eauto].
  destruct (get_prop data "access_token") as [a|e]; cbn; eauto.
Qed.

(** [handleResponse] completes without a call and without touching the
    page, and throws on every reply that is not OK. *)
Lemma run_handleResponse (r : response) (w : world) (net : list (outcome response)) :
  ∃ c, run (handleResponse r) w net = RunResult w (Some c) [] net ∧
       (ok r = false → ∃ err, c = Rejected err).
Proof.
  unfold handleResponse, run, bind, json, eval, throw, ret.
  destruct (match content_type r with Some ct => _ | None => _ end); cbn.
  - destruct (body_json r) as [data|e]; cbn; [|eauto].
    destruct (ok r); cbn; [by eexists|].
    destruct (get_prop data "message") as [m|e]; cbn; [|eauto].
    destruct (truthy m); cbn; [eauto|].
    destruct (get_prop data "error") as [m'|e]; cbn; eauto.
  - destruct (ok r); cbn; [by eexists|eauto].
Qed.

Lemma status_401_not_ok (r : response) : status r = 401 → ok r = false.
Proof. unfold ok. by intros ->. Qed.

Lemma run_makeRequest_no_refresh (endpoint : string) (options : request_options)
    (w : world) (r : response) (net : list (outcome response)) :
  (status r =? 401) && truthy (refreshToken w) = false →
  run (makeRequest endpoint options) w (Fulfilled r :: net) =
  prepend [first_call endpoint options w] (run (handleResponse r) w net).
Proof.
  intros Hc.
  unfold makeRequest, run, try_catch, bind, this, fetch. cbn.
  rewrite Hc. rewrite run_task_rethrow. done.
Qed.

Lemma run_makeRequest_retry (endpoint : string) (options : request_options)
    (w : world) (r1 r2 : response) (data a : jsval) (o3 : outcome response)
    (net : list (outcome response)) :
  status r1 = 401 → truthy (refreshToken w) = true →
  ok r2 = true → body_json r2 = Fulfilled data → get_prop data "access_token" = Fulfilled a →
  run (makeRequest endpoint options) w (Fulfilled r1 :: Fulfilled r2 :: o3 :: net) =
  prepend [first_call endpoint options w; refresh_call w;
           FetchCall (baseURL w +:+ endpoint)
             (retry_init options (<["Authorization" := "Bearer " +:+ ToString a]>
                                    (request_headers options w)))]
    match o3 with
    | Fulfilled r3 => run (handleResponse r3) (setTokens a (refreshToken w) w) net
    | Rejected e => RunResult (setTokens a (refreshToken w) w) (Some (Rejected e)) [] net
    end.
Proof.
  intros H1 Hr Hok Hb Ha.
  unfold makeRequest, refreshAccessToken, run, try_catch, bind, this, fetch, eval. cbn.
  rewrite H1, Hr. cbn. rewrite Hok. cbn. rewrite Hb. cbn. rewrite Ha. cbn.
  destruct o3 as [r3|e]; cbn; [|by destruct w].
  rewrite run_task_rethrow. by destruct w.
Qed.

Lemma run_makeRequest_refresh_failed (endpoint : string) (options : request_options)
    (w : world) (r1 : response) (o : outcome response) (err : js_error)
    (net : list (outcome response)) :
  status r1 = 401 → truthy (refreshToken w) = true →
  completion (run refreshAccessToken w (o :: net)) = Some (Rejected err) →
  run (makeRequest endpoint options) w (Fulfilled r1 :: o :: net) =
  RunResult (set_location_href login_page (clearTokens w)) (Some (Rejected err))
            [first_call endpoint options w; refresh_call w] net.
Proof.
  intros H1 Hr.
  unfold makeRequest, refreshAccessToken, run, try_catch, bind, this, fetch, eval. cbn.
  rewrite H1, Hr. cbn.
  destruct o as [r|e]; cbn; [|by intros [= ->]].
  destruct (ok r); cbn; [|by intros [= ->]].
  destruct (body_json r) as [data|e]; cbn; [|by intros [= ->]].
  destruct (get_prop data "access_token") as [a|e]; cbn; [done|by intros [= ->]].
Qed.


(** Whatever the network answers, one request makes at most three
    calls: itself, a refresh, and one retry. *)
Lemma makeRequest_at_most_three_calls (endpoint : string) (options : request_options)
    (w : world) (net : list (outcome response)) :
  (length (calls (run (makeRequest endpoint options) w net)) ≤ 3)%nat.
Proof.
  unfold makeRequest, refreshAccessToken, run, try_catch, bind, this, fetch, eval. cbn.
  destruct net as [|[r1|e1] net]; cbn; [lia| |lia].
  destruct ((status r1 =? 401) && truthy (refreshToken w)); cbn.
  - destruct net as [|[r2|e2] net]; cbn; [lia| |lia].
    destruct (ok r2); cbn; [|lia].
    destruct (body_json r2) as [data|e]; cbn; [|lia].
    destruct (get_prop data "access_token") as [a|e]; cbn; [|lia].
    destruct net as [|[r3|e3] net]; cbn; [lia| |lia].
    rewrite run_task_rethrow.
    destruct (run_handleResponse r3 (setTokens a (refreshToken w) w) net)
      as (c & Hrun & _).
    unfold run in Hrun. destruct w. cbn in Hrun |- *. rewrite Hrun. cbn; lia.
  - rewrite run_task_rethrow.
    destruct (run_handleResponse r1 w net) as (c & Hrun & _).
    unfold run in Hrun. rewrite Hrun. cbn; lia.
Qed.

(** C3, as the code has it: a 401 reply while no refresh credential is
    stored is handled like any other failed reply.  The request makes its
    one call, the state of the page (credentials in memory and in
    [localStorage] included) is left as it was, and the caller gets the
    failure that [handleResponse] builds from the reply.  That failure is
    one of four: when the reply declares JSON and its body parses to a
    value with properties, [Error(data.message || data.error || 'Request
    failed')]; when the body does not parse, the error of
    [response.json()] itself; when the body is [null], the [TypeError] of
    reading [data.message]; and when the reply does not declare JSON,
    [Error('HTTP 401: ' + statusText)]. *)
Theorem unauthorized_without_refresh_token (endpoint : string)
    (options : request_options) (w : world) (r : response)
    (net : list (outcome response)) :
  status r = 401 → truthy (refreshToken w) = false →
  let res := run (makeRequest endpoint options) w (Fulfilled r :: net) in
  end_world res = w ∧
  calls res = [first_call endpoint options w] ∧
  unused res = net ∧
  (∃ err, completion res = Some (Rejected err)) ∧
  completion res = completion (run (handleResponse r) w net) ∧
  (∀ data message error,
     declares_json r = true → body_json r = Fulfilled data →
     get_prop data "message" = Fulfilled message →
     get_prop data "error" = Fulfilled error →
     completion res =
       Some (Rejected (Error_ (js_or (js_or message error) (JStr "Request failed"))))) ∧
  (∀ e, declares_json r = true → body_json r = Rejected e →
     completion res = Some (Rejected e)) ∧
  (∀ data, declares_json r = true → body_json r = Fulfilled data →
     data = JNull ∨ data = JUndefined →
     ∃ descr, completion res = Some (Rejected (TypeError_ descr))) ∧
  (declares_json r = false →
     completion res = Some (Rejected (Error_ (JStr ("HTTP 401: " +:+ statusText r))))).
Proof.
  intros H1 Hr res. subst res.
  rewrite run_makeRequest_no_refresh by (by rewrite Hr, andb_false_r).
  pose proof (status_401_not_ok _ H1) as Hok.
  destruct (run_handleResponse r w net) as (c & Hrun & Hc).
  destruct (Hc Hok) as [err ->].
  rewrite Hrun. cbn.
  split_and!; eauto.
  all: revert Hrun;
    unfold handleResponse, declares_json, run, bind, json, eval, throw, ret;
    rewrite Hok, H1;
    destruct (match content_type r with Some ct => _ | None => _ end); cbn.
  all: try (intros _; done).
  - intros Hrun data message error _ Hb Hm He. revert Hrun.
    rewrite Hb. cbn. rewrite Hm. cbn. unfold js_or.
    destruct (truthy message) eqn:Em; cbn.
    + rewrite Em. by intros [= <-].
    + rewrite He. cbn. by intros [= <-].
  - intros Hrun e _ Hb. revert Hrun. rewrite Hb. cbn. by intros [= <-].
  - intros Hrun data _ Hb Hd. revert Hrun. rewrite Hb.
    destruct Hd as [-> | ->]; cbn; intros [= <-]; by eexists.
  - intros [= <-] _. done.
Qed.

(** C6: a refresh makes one call.  Whenever it fails, the state in which
    the error reaches the caller has both credentials cleared, in memory
    and in [localStorage], and the page sent to the login page.  A
    transport error is passed on as it is; a reply that is not OK, 401
    included, gives [Error('Token refresh failed')].  A request that
    started the refresh passes the same error on without retrying. *)
Theorem refresh_failure_clears_store (w : world) (o : outcome response)
    (net : list (outcome response)) :
  let res := run refreshAccessToken w (o :: net) in
  calls res = [refresh_call w] ∧ unused res = net ∧
  (∀ err, completion res = Some (Rejected err) →
     end_world res = set_location_href login_page (clearTokens w) ∧
     token (end_world res) = JNull ∧ refreshToken (end_world res) = JNull ∧
     localStorage (end_world res) !! "access_token" = None ∧
     localStorage (end_world res) !! "refresh_token" = None ∧
     location_href (end_world res) = login_page) ∧
  (∀ e, o = Rejected e → completion res = Some (Rejected e)) ∧
  (∀ r, o = Fulfilled r → ok r = false →
     completion res = Some (Rejected (Error_ (JStr "Token refresh failed")))) ∧
  (∀ r, o = Fulfilled r → status r = 401 →
     completion res = Some (Rejected (Error_ (JStr "Token refresh failed")))) ∧
  (∀ endpoint options r1 err,
     status r1 = 401 → truthy (refreshToken w) = true →
     completion res = Some (Rejected err) →
     run (makeRequest endpoint options) w (Fulfilled r1 :: o :: net) =
     RunResult (set_location_href login_page (clearTokens w)) (Some (Rejected err))
               [first_call endpoint options w; refresh_call w] net).
Proof.
  intros res.
  assert (Hnok : ∀ r, o = Fulfilled r → ok r = false →
            completion res = Some (Rejected (Error_ (JStr "Token refresh failed")))).
  { intros r -> Hok. subst res.
    unfold refreshAccessToken, run, try_catch, bind, this, fetch, eval. cbn.
    by rewrite Hok. }
  split_and!.
  - subst res. by destruct (run_refresh_cases w o net) as [[a ->]|[err ->]].
  - subst res. by destruct (run_refresh_cases w o net) as [[a ->]|[err ->]].
  - intros err. subst res.
    destruct (run_refresh_cases w o net) as [[a ->]|[err' ->]]; [done|].
    intros _. cbn. split_and!; try done.
    + rewrite lookup_delete_ne by done. apply lookup_delete_eq.
    + apply lookup_delete_eq.
  - by intros e ->.
  - done.
  - intros r Ho H401. by apply (Hnok r), status_401_not_ok.
  - intros endpoint options r1 err H1 Hr Hc.
    by apply run_makeRequest_refresh_failed.
Qed.

(** C9, as the code has it: a refresh takes nothing but [access_token]
    from the reply, and installs it together with the refresh credential
    that the instance holds when the body of the reply has been read,
    [this.refreshToken] being read after the two [await]s.  At that step
    the refresh credential in memory stays what it is and [localStorage]
    receives its string form.  So a refresh that runs alone keeps the
    refresh credential it started with; one that is resumed on a page that
    has changed in the meantime keeps what it finds there. *)
Theorem refresh_keeps_refresh_token (w : world) :
  ∃ k1,
    refreshAccessToken w = AwaitFetch w (refresh_url w) (refresh_init w) k1 ∧
    (∀ r w1, ok r = true →
       ∃ k2, k1 (Fulfilled r) w1 = AwaitJson w1 r k2 ∧
         (∀ data a w2, get_prop data "access_token" = Fulfilled a →
            k2 (Fulfilled data) w2
            = Done (setTokens a (refreshToken w2) w2) (Fulfilled a)) ∧
         (∀ (p : page jsval) i data a,
            slots p !! i = Some (OnJson r k2) →
            body_json r = Fulfilled data →
            get_prop data "access_token" = Fulfilled a →
            shared (deliver (BodyRead i) p)
            = setTokens a (refreshToken (shared p)) (shared p))) ∧
    (∀ a w2,
       let w' := setTokens a (refreshToken w2) w2 in
       refreshToken w' = refreshToken w2 ∧
       token w' = a ∧
       localStorage w' !! "refresh_token" = Some (ToString (refreshToken w2)) ∧
       (∀ s, refreshToken w2 = JStr s → localStorage w2 !! "refresh_token" = Some s →
             localStorage w' !! "refresh_token" = Some s) ∧
       (refreshToken w2 = JNull → localStorage w' !! "refresh_token" = Some "null")) ∧
    (∀ o net a,
       let res := run refreshAccessToken w (o :: net) in
       completion res = Some (Fulfilled a) →
       refreshToken (end_world res) = refreshToken w ∧
       token (end_world res) = a ∧
       end_world res = setTokens a (refreshToken w) w ∧
       localStorage (end_world res) !! "refresh_token"
         = Some (ToString (refreshToken w)) ∧
       (∀ s, refreshToken w = JStr s → localStorage w !! "refresh_token" = Some s →
             localStorage (end_world res) !! "refresh_token" = Some s)).
Proof.
  eexists. split; [reflexivity|]. split_and!.
  - intros r w1 Hok. cbn. rewrite Hok. cbn.
    eexists. split; [reflexivity|]. split.
    + intros data a w2 Ha. cbn. rewrite Ha. cbn. by rewrite ?Ha.
    + intros p i data a Hi Hb Ha. cbn. rewrite Hi, Hb. cbn.
      rewrite Ha. cbn. by rewrite ?Ha.
  - intros a w2 w'. subst w'. cbn. split_and!; try done.
    + apply lookup_insert_eq.
    + intros s -> _. apply lookup_insert_eq.
    + intros ->. apply lookup_insert_eq.
  - intros o net a res. subst res.
    destruct (run_refresh_cases w o net) as [[a' ->]|[err ->]]; [|done].
    intros [= ->]. cbn. split_and!; try done.
    + apply lookup_insert_eq.
    + intros s -> _. apply lookup_insert_eq.
Qed.

(** C10, as the code has it: the headers object that [makeRequest] hands
    to the first [fetch] is the caller's entries over the default
    [Content-Type], with the entry spelled [Authorization] set to
    [Bearer <token>] when [this.token] is truthy.  That assignment replaces
    a caller's entry of the same spelling and no other: an entry under
    another spelling of the name, [authorization] say, stays next to it,
    so every authorization entry is the bearer one only if the caller gave
    none under another spelling.  When [this.token] is falsy every entry
    of the caller is passed as it is, and [Authorization] is absent if the
    caller gave none.  The caller's entries are the own properties of
    [options.headers]: a [Headers] instance has none and is dropped. *)
Theorem authorization_header_ownership (endpoint : string) (options : request_options)
    (w : world) :
  ∃ c, calls (run (makeRequest endpoint options) w []) = [c] ∧
       call_url c = baseURL w +:+ endpoint ∧
       (truthy (token w) = true →
          init_headers (call_init c) !! "Authorization"
          = Some ("Bearer " +:+ ToString (token w))) ∧
       (∀ s, token w = JStr s → s ≠ "" →
          init_headers (call_init c) !! "Authorization" = Some ("Bearer " +:+ s)) ∧
       (truthy (token w) = false →
          init_headers (call_init c) !! "Authorization"
          = default ∅ (opt_headers options) !! "Authorization") ∧
       (∀ k v, k ≠ "Authorization" →
          default ∅ (opt_headers options) !! k = Some v →
          init_headers (call_init c) !! k = Some v) ∧
       (∀ k, k ≠ "Authorization" → k ≠ "Content-Type" →
          init_headers (call_init c) !! k = default ∅ (opt_headers options) !! k) ∧
       (truthy (token w) = false →
          ∀ k v, default ∅ (opt_headers options) !! k = Some v →
                 init_headers (call_init c) !! k = Some v) ∧
       (truthy (token w) = true →
          (∀ k, names_header "Authorization" k = true → k ≠ "Authorization" →
                default ∅ (opt_headers options) !! k = None) →
          ∀ k v, names_header "Authorization" k = true →
                 init_headers (call_init c) !! k = Some v →
                 v = "Bearer " +:+ ToString (token w)) ∧
       (∀ entries fields, options = options_with (HeadersInstance entries) fields →
          init_headers (call_init c)
          = if truthy (token w)
            then <["Authorization" := "Bearer " +:+ ToString (token w)]>
                   {["Content-Type" := "application/json"]}
            else {["Content-Type" := "application/json"]}).
Proof.
  exists (first_call endpoint options w). split_and!; try done.
  - intros Ht. cbn. unfold request_headers. rewrite Ht. apply lookup_insert_eq.
  - intros s Hs Hne. cbn. unfold request_headers. rewrite Hs. cbn.
    destruct (String.eqb_spec s ""); [done|]. cbn. apply lookup_insert_eq.
  - intros Ht. cbn. unfold request_headers, base_headers. rewrite Ht.
    rewrite lookup_union, lookup_singleton_ne by done.
    by destruct (default ∅ (opt_headers options) !! "Authorization").
  - intros k v Hk Hv. cbn. unfold request_headers, base_headers.
    destruct (truthy (token w)); rewrite ?lookup_insert_ne by done;
      by apply lookup_union_Some_l.
  - intros k Hk Hct. cbn. unfold request_headers, base_headers.
    destruct (truthy (token w)); rewrite ?lookup_insert_ne by done;
      rewrite lookup_union, lookup_singleton_ne by done;
      by destruct (default ∅ (opt_headers options) !! k).
  - intros Ht k v Hv. cbn. unfold request_headers, base_headers. rewrite Ht.
    by apply lookup_union_Some_l.
  - intros Ht Hnone k v Hk. cbn. unfold request_headers, base_headers. rewrite Ht.
    destruct (decide (k = "Authorization")) as [->|Hne].
    + rewrite lookup_insert_eq. by intros [= <-].
    + rewrite lookup_insert_ne by done.
      destruct (decide (k = "Content-Type")) as [->|Hct]; [discriminate Hk|].
      rewrite lookup_union, lookup_singleton_ne, (Hnone k Hk Hne) by done.
      done.
  - intros entries fields ->. cbn. unfold request_headers, base_headers. cbn.
    by rewrite (left_id_L ∅ (∪)).
Qed.

(** ** Concurrent requests *)

Lemma spawn_makeRequest (endpoint : string) (options : request_options)
    (p : page reply) :
  spawn (makeRequest endpoint options) p =
  Page (shared p)
       (slots p ++ [OnFetch (after_first endpoint options (shared p))])
       (log p ++ [first_call endpoint options (shared p)]).
Proof. reflexivity. Qed.

Lemma spawn_all_spec (reqs : list (string * request_options)) (w : world)
    (sl : list (slot reply)) (lg : list fetch_call) :
  spawn_all reqs (Page w sl lg) =
  Page w (sl ++ map (λ q, OnFetch (after_first q.1 q.2 w)) reqs)
         (lg ++ map (λ q, first_call q.1 q.2 w) reqs).
Proof.
  revert sl lg. induction reqs as [|q reqs IH]; intros sl lg.
  - cbn. by rewrite !app_nil_r.
  - change (spawn_all (q :: reqs) (Page w sl lg))
      with (spawn_all reqs (spawn (makeRequest q.1 q.2) (Page w sl lg))).
    rewrite spawn_makeRequest. cbn [shared slots log].
    rewrite IH. cbn [map]. by rewrite <- !app_assoc.
Qed.

(** A request resumed with 401 on a page that holds a refresh credential
    issues a refresh call, whatever else is in flight. *)
Lemma after_first_unauthorized (endpoint : string) (options : request_options)
    (w0 : world) (r : response) (w : world) :
  status r = 401 → truthy (refreshToken w) = true →
  ∃ k, after_first endpoint options w0 (Fulfilled r) w =
       AwaitFetch w (refresh_url w) (refresh_init w) k.
Proof.
  intros H1 Hr. unfold after_first. cbn. rewrite H1, Hr. cbn. by eexists.
Qed.

Lemma deliver_unauthorized (endpoint : string) (options : request_options)
    (w0 : world) (r : response) (i : nat) (p : page reply) :
  slots p !! i = Some (OnFetch (after_first endpoint options w0)) →
  status r = 401 → truthy (refreshToken (shared p)) = true →
  ∃ k, deliver (Reply i (Fulfilled r)) p =
       Page (shared p) (<[i := OnFetch k]> (slots p)) (log p ++ [refresh_call (shared p)]).
Proof.
  intros Hs H1 Hr. unfold deliver. rewrite Hs.
  destruct (after_first_unauthorized endpoint options w0 r (shared p) H1 Hr) as [k ->].
  by exists k.
Qed.

(** Requests answered 401 in any order, each at most once: every answer
    adds one refresh call and leaves the other slots as they are. *)
Lemma play_unauthorized_any_order (w : world) (reqs : list (string * request_options))
    (evs : list (nat * response)) (p : page reply) :
  truthy (refreshToken w) = true →
  shared p = w →
  NoDup (evs.*1) →
  (∀ i r, (i, r) ∈ evs →
     status r = 401 ∧
     ∃ q, reqs !! i = Some q ∧ slots p !! i = Some (OnFetch (after_first q.1 q.2 w))) →
  shared (play (replies evs) p) = w ∧
  log (play (replies evs) p) = log p ++ replicate (length evs) (refresh_call w) ∧
  length (slots (play (replies evs) p)) = length (slots p) ∧
  (∀ j, j ∉ evs.*1 → slots (play (replies evs) p) !! j = slots p !! j) ∧
  (∀ j, j ∈ evs.*1 → ∃ k, slots (play (replies evs) p) !! j = Some (OnFetch k)).
Proof.
  intros Hr. revert p.
  induction evs as [|[i r] evs IH]; intros p Hw Hnd Hev.
  - cbn. rewrite app_nil_r. split_and!; try done. intros j Hj. by apply elem_of_nil in Hj.
  - apply NoDup_cons in Hnd as [Hi Hnd].
    destruct (Hev i r) as (H1 & q & Hq & Hs); [left|].
    destruct (deliver_unauthorized q.1 q.2 w r i p Hs H1) as [k Hk]; [by rewrite Hw|].
    change (play (replies ((i, r) :: evs)) p)
      with (play (replies evs) (deliver (Reply i (Fulfilled r)) p)).
    rewrite Hk, Hw.
    destruct (IH (Page w (<[i := OnFetch k]> (slots p)) (log p ++ [refresh_call w])))
      as (IHw & IHl & IHn & IHo & IHi); [done|done| |].
    { intros j r' Hj.
      destruct (Hev j r') as (H1' & q' & Hq' & Hs'); [by right|].
      split; [done|]. exists q'. split; [done|]. cbn.
      rewrite list_lookup_insert_ne; [done|].
      intros ->. apply Hi. apply list_elem_of_fmap. by exists (j, r'). }
    cbn [shared slots log] in *.
    split_and!.
    + done.
    + rewrite IHl. cbn [length replicate]. by rewrite <- app_assoc.
    + by rewrite IHn, length_insert.
    + intros j Hj. rewrite fmap_cons, not_elem_of_cons in Hj. destruct Hj as [Hne Hj].
      rewrite IHo by done. by rewrite list_lookup_insert_ne.
    + intros j Hj. rewrite fmap_cons, elem_of_cons in Hj.
      destruct (decide (j ∈ evs.*1)) as [Hin|Hnin]; [by apply IHi|].
      destruct Hj as [->|Hj]; [|done].
      rewrite IHo by done. exists k. apply list_lookup_insert_eq.
      by apply lookup_lt_Some in Hs.
Qed.

Lemma app_inj_prefix (b x y : string) : b +:+ x = b +:+ y → x = y.
Proof. induction b as [|c b IH]; cbn; [done|]. intros [= Heq]. auto. Qed.

Lemma refresh_calls_app (w : world) (l1 l2 : list fetch_call) :
  refresh_calls w (l1 ++ l2) = (refresh_calls w l1 + refresh_calls w l2)%nat.
Proof. unfold refresh_calls. by rewrite filter_app, length_app. Qed.

Lemma refresh_calls_replicate (w : world) (n : nat) :
  refresh_calls w (replicate n (refresh_call w)) = n.
Proof.
  unfold refresh_calls. induction n as [|n IH]; [done|].
  cbn [replicate]. rewrite filter_cons_True by done. cbn. by rewrite IH.
Qed.

Lemma refresh_calls_first (w : world) (reqs : list (string * request_options)) :
  Forall (λ q, q.1 ≠ "/api/auth/refresh") reqs →
  refresh_calls w (map (λ q, first_call q.1 q.2 w) reqs) = 0%nat.
Proof.
  unfold refresh_calls. induction 1 as [|q reqs Hq _ IH]; [done|].
  cbn [map]. rewrite filter_cons_False; [done|].
  cbn. unfold refresh_url. intros Heq. by apply app_inj_prefix in Heq.
Qed.

(** C2, as the code has it: there is no single-flight coordination.
    When requests are issued together on a page with a refresh credential
    and some of them are answered 401, in any order, before any refresh is
    answered, each of those requests issues its own refresh call: the log
    holds the requests followed by one refresh call per 401, and each of
    these requests then waits for the reply to its own refresh.  With all
    [n] requests answered 401 that makes [n] refresh calls. *)
Theorem no_single_flight (w : world) (reqs : list (string * request_options))
    (evs : list (nat * response)) :
  truthy (refreshToken w) = true →
  NoDup (evs.*1) →
  Forall (λ e, (e.1 < length reqs)%nat ∧ status e.2 = 401) evs →
  let p := play (replies evs) (spawn_all reqs (Page w [] [])) in
  shared p = w ∧
  log p = map (λ q, first_call q.1 q.2 w) reqs ++ replicate (length evs) (refresh_call w) ∧
  (∀ i, i ∈ evs.*1 → ∃ k, slots p !! i = Some (OnFetch k)) ∧
  (Forall (λ q, q.1 ≠ "/api/auth/refresh") reqs →
   refresh_calls w (log p) = length evs) ∧
  (Forall (λ q, q.1 ≠ "/api/auth/refresh") reqs → length evs = length reqs →
   refresh_calls w (log p) = length reqs).
Proof.
  intros Hr Hnd Hall p. subst p.
  rewrite spawn_all_spec. cbn [app].
  destruct (play_unauthorized_any_order w reqs evs
              (Page w (map (λ q, OnFetch (after_first q.1 q.2 w)) reqs)
                      (map (λ q, first_call q.1 q.2 w) reqs)) Hr eq_refl Hnd)
    as (Hw & Hl & _ & _ & Hi).
  { intros i r Hir. rewrite Forall_forall in Hall.
    destruct (Hall _ Hir) as [Hlt H1]. cbn in Hlt, H1.
    split; [done|].
    destruct (lookup_lt_is_Some_2 reqs i Hlt) as [q Hq].
    exists q. split; [done|]. cbn. by rewrite list_lookup_fmap, Hq. }
  cbn [log] in Hl.
  assert (Hcount : Forall (λ q, q.1 ≠ "/api/auth/refresh") reqs →
            refresh_calls w (log (play (replies evs)
              (Page w (map (λ q, OnFetch (after_first q.1 q.2 w)) reqs)
                      (map (λ q, first_call q.1 q.2 w) reqs)))) = length evs).
  { intros Hne. rewrite Hl, refresh_calls_app, refresh_calls_replicate.
    by rewrite refresh_calls_first. }
  split_and!; try done.
  intros Hne <-. by apply Hcount.
Qed.

End ClientFacts.

(** * Further properties of the client *)

Section SessionFacts.
Context `{Platform} `{Serializer}.

(** ** Decoding reads the second piece only *)

Lemma split_dot_nonempty (s : string) : split_dot s ≠ [].
Proof.
  destruct s as [|c s]; cbn; [done|].
  destruct (split_dot s); [done|]. by destruct (Ascii.eqb c ".").
Qed.

Lemma split_dot_single (s : string) : no_dot s = true → split_dot s = [s].
Proof.
  induction s as [|c s IH]; cbn; [done|].
  intros [Hc Hs]%andb_true_iff. rewrite (IH Hs).
  apply negb_true_iff in Hc. by rewrite Hc.
Qed.

Lemma split_dot_app (h rest : string) :
  no_dot h = true → split_dot (h +:+ "." +:+ rest) = h :: split_dot rest.
Proof.
  induction h as [|c h IH].
  - intros _. change ("" +:+ "." +:+ rest) with (String "." rest).
    cbn [split_dot].
    destruct (split_dot rest) eqn:E; [by apply split_dot_nonempty in E|done].
  - intros [Hc Hh]%andb_true_iff.
    change (String c h +:+ "." +:+ rest) with (String c (h +:+ "." +:+ rest)).
    cbn [split_dot]. rewrite (IH Hh).
    apply negb_true_iff in Hc. by rewrite Hc.
Qed.

Lemma truthy_dotted (a b : string) : truthy (JStr (a +:+ "." +:+ b)) = true.
Proof. by destruct a. Qed.

(** X1: decoding looks at the second dot-separated piece of the token and
    at nothing else.  A token of three pieces and one of two pieces with
    the same second piece decode alike, and [getCurrentUserId] gives the
    same answer whatever the first and third pieces are: header and
    signature are never checked. *)
Theorem token_payload_reads_second_piece (header payload signature : string) :
  no_dot header = true → no_dot payload = true →
  token_payload (JStr (header +:+ "." +:+ payload +:+ "." +:+ signature))
    = and_then (atob payload) JSON_parse ∧
  token_payload (JStr (header +:+ "." +:+ payload))
    = and_then (atob payload) JSON_parse ∧
  (∀ w header' signature',
     no_dot header' = true →
     token w = JStr (header +:+ "." +:+ payload +:+ "." +:+ signature) →
     getCurrentUserId (set_token (JStr (header' +:+ "." +:+ payload +:+ "." +:+ signature')) w)
     = getCurrentUserId w).
Proof.
  intros Hh Hp.
  assert (H3 : ∀ h s, no_dot h = true →
               token_payload (JStr (h +:+ "." +:+ payload +:+ "." +:+ s))
               = and_then (atob payload) JSON_parse).
  { intros h s Hh'. unfold token_payload. rewrite split_dot_app by done.
    by rewrite split_dot_app. }
  split_and!; [by apply H3| |].
  - unfold token_payload. rewrite split_dot_app by done.
    by rewrite split_dot_single.
  - intros w h' s' Hh' Hw. unfold getCurrentUserId. rewrite Hw. cbn [token set_token].
    by rewrite !truthy_dotted, !H3.
Qed.

(** ** The request pipeline on replies other than 401 *)

Lemma ok_not_401 (r : response) : ok r = true → (status r =? 401) = false.
Proof. unfold ok. intros [? ?]%andb_true_iff. lia. Qed.

Lemma run_handleResponse_ok (r : response) (w : world) (net : list (outcome response)) :
  ok r = true →
  run (handleResponse r) w net =
  RunResult w
    (Some (if declares_json r
           then match body_json r with
                | Fulfilled data => Fulfilled (Parsed data)
                | Rejected e => Rejected e
                end
           else Fulfilled (Raw r)))
    [] net.
Proof.
  intros Hok. unfold handleResponse, declares_json, run, bind, json, eval, throw, ret.
  rewrite Hok.
  destruct (match content_type r with Some ct => _ | None => _ end); cbn; [|done].
  by destruct (body_json r).
Qed.

(** X2: a request answered with an OK reply makes one call, leaves the
    page as it was and returns the parsed body when the reply declares
    JSON, the [Response] itself when it does not; an OK reply that
    declares JSON and whose body does not parse makes the request fail
    with the parse error. *)
Theorem makeRequest_returns_body (endpoint : string) (options : request_options)
    (w : world) (r : response) (net : list (outcome response)) :
  ok r = true →
  let res := run (makeRequest endpoint options) w (Fulfilled r :: net) in
  end_world res = w ∧
  calls res = [first_call endpoint options w] ∧
  unused res = net ∧
  (∀ data, declares_json r = true → body_json r = Fulfilled data →
     completion res = Some (Fulfilled (Parsed data))) ∧
  (∀ e, declares_json r = true → body_json r = Rejected e →
     completion res = Some (Rejected e)) ∧
  (declares_json r = false → completion res = Some (Fulfilled (Raw r))).
Proof.
  intros Hok res. subst res.
  rewrite run_makeRequest_no_refresh by (by rewrite ok_not_401).
  rewrite run_handleResponse_ok by done. cbn.
  split_and!; try done.
  - by intros data -> ->.
  - by intros e -> ->.
  - by intros ->.
Qed.

(** X3: failures other than 401 are not retried and start no refresh,
    with or without a stored refresh credential: a transport error is
    passed on as it is, and a reply that is not OK and not 401 makes the
    request fail after its one call, the page left as it was. *)
Theorem makeRequest_other_failures_not_retried (endpoint : string)
    (options : request_options) (w : world) (net : list (outcome response)) :
  (∀ err, run (makeRequest endpoint options) w (Rejected err :: net) =
          RunResult w (Some (Rejected err)) [first_call endpoint options w] net) ∧
  (∀ r, ok r = false → status r ≠ 401 →
        ∃ err, run (makeRequest endpoint options) w (Fulfilled r :: net) =
               RunResult w (Some (Rejected err)) [first_call endpoint options w] net).
Proof.
  split; [done|].
  intros r Hok H401.
  rewrite run_makeRequest_no_refresh.
  2:{ apply andb_false_iff. left. lia. }
  destruct (run_handleResponse r w net) as (c & -> & Hc).
  destruct (Hc Hok) as [err ->]. by exists err.
Qed.

(** X4: the error [handleResponse] throws for a reply that is not OK.
    With a JSON object as body it is [Error(message || error ||
    'Request failed')], whose argument is never falsy; a body that does
    not parse passes its parse error on; a body that is [null] gives a
    [TypeError]; without a JSON content type it is
    [Error('HTTP <status>: <statusText>')]. *)
Theorem handleResponse_failure (r : response) (w : world)
    (net : list (outcome response)) :
  ok r = false →
  let res := run (handleResponse r) w net in
  (∀ m, declares_json r = true → body_json r = Fulfilled (JObj m) →
     let message := js_or (js_or (default JUndefined (m !! "message"))
                                 (default JUndefined (m !! "error")))
                          (JStr "Request failed") in
     completion res = Some (Rejected (Error_ message)) ∧ truthy message = true) ∧
  (∀ e, declares_json r = true → body_json r = Rejected e →
     completion res = Some (Rejected e)) ∧
  (∀ data, declares_json r = true → body_json r = Fulfilled data →
     data = JNull ∨ data = JUndefined →
     ∃ descr, completion res = Some (Rejected (TypeError_ descr))) ∧
  (declares_json r = false →
     completion res = Some (Rejected (Error_ (JStr
       ("HTTP " +:+ pretty (status r) +:+ ": " +:+ statusText r))))).
Proof.
  intros Hok res. subst res.
  unfold handleResponse, declares_json, run, bind, json, eval, throw, ret.
  rewrite Hok.
  destruct (match content_type r with Some ct => _ | None => _ end); cbn.
  - split_and!; try done.
    + intros m _ ->. cbn. unfold js_or.
      destruct (truthy (default JUndefined (m !! "message"))) eqn:Em; cbn; [by rewrite Em|].
      destruct (truthy (default JUndefined (m !! "error"))) eqn:Ee; cbn; by rewrite ?Ee.
    + by intros e _ ->.
    + intros data _ -> [->| ->]; cbn; by eexists.
  - split_and!; done.
Qed.

(** ** What a request can do to the page *)

Lemma makeRequest_end_world_cases (endpoint : string) (options : request_options)
    (w : world) (net : list (outcome response)) :
  let res := run (makeRequest endpoint options) w net in
  end_world res = w ∨
  truthy (refreshToken w) = true ∧
  ((∃ a, end_world res = setTokens a (refreshToken w) w) ∨
   end_world res = set_location_href login_page (clearTokens w)).
Proof.
  cbv zeta.
  destruct net as [|[r1|e1] net]; [by left| |by left].
  destruct ((status r1 =? 401) && truthy (refreshToken w)) eqn:Hc.
  - apply andb_true_iff in Hc as [H1 Hr]. apply Z.eqb_eq in H1.
    destruct net as [|o2 net].
    { left. unfold makeRequest, refreshAccessToken, run, try_catch, bind, this, fetch, eval.
      cbn. by rewrite H1, Hr. }
    right. split; [done|].
    destruct (run_refresh_cases w o2 net) as [[a Hrun]|[err Hrun]].
    + left. exists a.
      revert Hrun.
      unfold makeRequest, refreshAccessToken, run, try_catch, bind, this, fetch, eval. cbn.
      rewrite H1, Hr. cbn.
      destruct o2 as [r2|e2]; cbn; [|done].
      destruct (ok r2); cbn; [|done].
      destruct (body_json r2) as [data|e]; cbn; [|done].
      destruct (get_prop data "access_token") as [a'|e]; cbn; [|done].
      intros [= <-].
      destruct net as [|[r3|e3] net]; cbn; [by destruct w| |by destruct w].
      rewrite run_task_rethrow.
      destruct (run_handleResponse r3 (setTokens a' (refreshToken w) w) net)
        as (c & Hh & _).
      unfold run in Hh. destruct w. cbn in Hh |- *. by rewrite Hh.
    + right.
      assert (Hcomp : completion (run refreshAccessToken w (o2 :: net))
                      = Some (Rejected err)) by (by rewrite Hrun).
      by rewrite (run_makeRequest_refresh_failed endpoint options w r1 o2 err net H1 Hr Hcomp).
  - rewrite run_makeRequest_no_refresh by done.
    destruct (run_handleResponse r1 w net) as (c & -> & _). by left.
Qed.

(** X5: what one request can do to the page, whatever the network
    answers: [baseURL] and the timers never change, the refresh
    credential stays or becomes [null], the location stays or becomes the
    login page (and then the access credential is [null]), and without a
    stored refresh credential nothing changes at all. *)
Theorem makeRequest_frame (endpoint : string) (options : request_options)
    (w : world) (net : list (outcome response)) :
  let res := run (makeRequest endpoint options) w net in
  baseURL (end_world res) = baseURL w ∧
  timers (end_world res) = timers w ∧
  (refreshToken (end_world res) = refreshToken w ∨ refreshToken (end_world res) = JNull) ∧
  (location_href (end_world res) = location_href w ∨
   location_href (end_world res) = login_page ∧ token (end_world res) = JNull) ∧
  (truthy (refreshToken w) = false → end_world res = w).
Proof.
  cbv zeta.
  destruct (makeRequest_end_world_cases endpoint options w net)
    as [->|[Hr [[a ->]| ->]]].
  - split_and!; auto.
  - split_and!; try (by destruct w); auto. intros Hf. congruence.
  - split_and!; try (by destruct w); auto. intros Hf. congruence.
Qed.

Lemma makeRequest_completes (endpoint : string) (options : request_options)
    (w : world) (net : list (outcome response)) :
  (3 ≤ length net)%nat →
  ∃ c, completion (run (makeRequest endpoint options) w net) = Some c.
Proof.
  intros Hlen.
  destruct net as [|[r1|e1] net]; [cbn in Hlen; lia| |by eexists].
  destruct ((status r1 =? 401) && truthy (refreshToken w)) eqn:Hc.
  - apply andb_true_iff in Hc as [H1 Hr]. apply Z.eqb_eq in H1.
    destruct net as [|o2 net]; [cbn in Hlen; lia|].
    destruct (run_refresh_cases w o2 net) as [[a Hrun]|[err Hrun]].
    + revert Hrun.
      unfold makeRequest, refreshAccessToken, run, try_catch, bind, this, fetch, eval. cbn.
      rewrite H1, Hr. cbn.
      destruct o2 as [r2|e2]; cbn; [|done].
      destruct (ok r2); cbn; [|done].
      destruct (body_json r2) as [data|e]; cbn; [|done].
      destruct (get_prop data "access_token") as [a'|e]; cbn; [|done].
      intros _.
      destruct net as [|[r3|e3] net]; cbn; [cbn in Hlen; lia| |by eexists].
      rewrite run_task_rethrow.
      destruct (run_handleResponse r3 (setTokens a' (refreshToken w) w) net)
        as (c & Hh & _).
      unfold run in Hh. destruct w. cbn in Hh |- *. rewrite Hh. by eexists.
    + assert (Hcomp : completion (run refreshAccessToken w (o2 :: net))
                      = Some (Rejected err)) by (by rewrite Hrun).
      rewrite (run_makeRequest_refresh_failed endpoint options w r1 o2 err net H1 Hr Hcomp).
      by eexists.
  - rewrite run_makeRequest_no_refresh by done.
    destruct (run_handleResponse r1 w net) as (c & -> & _). by eexists.
Qed.

(** ** Session methods *)

Lemma run_bind_task {A B : Type} (t : task A) (f : A → async B)
    (net : list (outcome response)) :
  run_task (bind_task t f) net = then_run (run_task t net) f.
Proof.
  revert net. induction t as [w [a|e]|w url init k IH|w r k IH]; intros net; cbn.
  - unfold then_run; cbn. by rewrite prepend_nil.
  - done.
  - destruct net as [|o net]; [done|].
    rewrite IH. unfold then_run; cbn.
    by destruct (run_task (k o w) net) as [w' [[a|e]|] cs un].
  - apply IH.
Qed.

(** [login] and [register] are [makeRequest] followed by a step without
    [await]. *)
Lemma run_login (credentials body : jsval) (w : world) (net : list (outcome response)) :
  JSON_stringify credentials = Fulfilled body →
  ∃ f, run (login credentials) w net =
       then_run (run (makeRequest "/api/auth/login" (post_options body)) w net) f ∧
       ∀ response w' net',
         run (f response) w' net' =
         match reply_prop response "access_token" with
         | Rejected e => RunResult w' (Some (Rejected e)) [] net'
         | Fulfilled access_token =>
             if truthy access_token then
               match reply_prop response "refresh_token" with
               | Rejected e => RunResult w' (Some (Rejected e)) [] net'
               | Fulfilled refresh_token =>
                   RunResult (setTokens access_token refresh_token w')
                             (Some (Fulfilled response)) [] net'
               end
             else RunResult w' (Some (Fulfilled response)) [] net'
         end.
Proof.
  intros Hb. eexists. split.
  - unfold login, run, try_catch, bind, eval. rewrite Hb.
    rewrite run_task_rethrow. cbn [bind_task].
    rewrite run_bind_task. reflexivity.
  - intros response w' net'. unfold run, bind, eval, update, ret. cbn.
    destruct (reply_prop response "access_token") as [a|e]; cbn; [|done].
    destruct (truthy a); cbn; [|done].
    by destruct (reply_prop response "refresh_token").
Qed.

Lemma run_register (userData body : jsval) (w : world) (net : list (outcome response)) :
  JSON_stringify userData = Fulfilled body →
  ∃ f, run (register userData) w net =
       then_run (run (makeRequest "/api/auth/register" (post_options body)) w net) f ∧
       ∀ response w' net',
         run (f response) w' net' =
         match reply_prop response "access_token" with
         | Rejected e => RunResult w' (Some (Rejected e)) [] net'
         | Fulfilled access_token =>
             if truthy access_token then
               match reply_prop response "refresh_token" with
               | Rejected e => RunResult w' (Some (Rejected e)) [] net'
               | Fulfilled refresh_token =>
                   RunResult (setTokens access_token refresh_token w')
                             (Some (Fulfilled response)) [] net'
               end
             else RunResult w' (Some (Fulfilled response)) [] net'
         end.
Proof.
  intros Hb. eexists. split.
  - unfold register, run, try_catch, bind, eval. rewrite Hb.
    rewrite run_task_rethrow. cbn [bind_task].
    rewrite run_bind_task. reflexivity.
  - intros response w' net'. unfold run, bind, eval, update, ret. cbn.
    destruct (reply_prop response "access_token") as [a|e]; cbn; [|done].
    destruct (truthy a); cbn; [|done].
    by destruct (reply_prop response "refresh_token").
Qed.

Lemma run_makeRequest_ok (endpoint : string) (options : request_options)
    (w : world) (r : response) (net : list (outcome response)) :
  ok r = true →
  run (makeRequest endpoint options) w (Fulfilled r :: net) =
  RunResult w
    (Some (if declares_json r
           then match body_json r with
                | Fulfilled data => Fulfilled (Parsed data)
                | Rejected e => Rejected e
                end
           else Fulfilled (Raw r)))
    [first_call endpoint options w] net.
Proof.
  intros Hok. rewrite run_makeRequest_no_refresh by (by rewrite ok_not_401).
  by rewrite run_handleResponse_ok.
Qed.


(** X7: [login] answered with an OK reply that carries no usable
    [access_token] (not JSON, or a falsy value) returns the reply and
    leaves the page as it was. *)
Theorem login_without_token_keeps_store (credentials body : jsval) (w : world)
    (r : response) (net : list (outcome response)) :
  JSON_stringify credentials = Fulfilled body →
  ok r = true →
  let res := run (login credentials) w (Fulfilled r :: net) in
  (declares_json r = false →
     res = RunResult w (Some (Fulfilled (Raw r)))
                     [first_call "/api/auth/login" (post_options body) w] net) ∧
  (∀ data access_token,
     declares_json r = true → body_json r = Fulfilled data →
     get_prop data "access_token" = Fulfilled access_token →
     truthy access_token = false →
     res = RunResult w (Some (Fulfilled (Parsed data)))
                     [first_call "/api/auth/login" (post_options body) w] net).
Proof.
  intros Hb Hok res. subst res.
  destruct (run_login credentials body w (Fulfilled r :: net) Hb) as (f & -> & Hf).
  rewrite run_makeRequest_ok by done. split.
  - intros ->. unfold then_run. cbn. by rewrite Hf.
  - intros data a -> -> Ha Ht. unfold then_run. cbn. rewrite Hf. cbn.
    by rewrite Ha, Ht.
Qed.

Lemma run_login_rejected (credentials body : jsval) (w : world)
    (net : list (outcome response)) (err : js_error) :
  JSON_stringify credentials = Fulfilled body →
  completion (run (makeRequest "/api/auth/login" (post_options body)) w net)
    = Some (Rejected err) →
  run (login credentials) w net
    = run (makeRequest "/api/auth/login" (post_options body)) w net.
Proof.
  intros Hb Hc.
  destruct (run_login credentials body w net Hb) as (f & -> & _).
  unfold then_run. rewrite Hc.
  destruct (run (makeRequest "/api/auth/login" (post_options body)) w net).
  cbn in Hc |- *. by rewrite Hc.
Qed.

Lemma run_refresh_not_ok (w : world) (r : response) (net : list (outcome response)) :
  ok r = false →
  completion (run refreshAccessToken w (Fulfilled r :: net))
    = Some (Rejected (Error_ (JStr "Token refresh failed"))).
Proof.
  intros Hok.
  unfold refreshAccessToken, run, try_catch, bind, this, fetch, eval. cbn.
  by rewrite Hok.
Qed.

(** X8: a failing [login] passes the failure on.  When
    [JSON.stringify] throws, no call is made; when the request fails,
    [login] ends exactly as the request did; and without a stored refresh
    credential the page is left as it was. *)
Theorem login_failure_propagates (credentials : jsval) (w : world)
    (net : list (outcome response)) :
  (∀ e, JSON_stringify credentials = Rejected e →
        run (login credentials) w net = RunResult w (Some (Rejected e)) [] net) ∧
  (∀ body err,
     JSON_stringify credentials = Fulfilled body →
     completion (run (makeRequest "/api/auth/login" (post_options body)) w net)
       = Some (Rejected err) →
     run (login credentials) w net
       = run (makeRequest "/api/auth/login" (post_options body)) w net) ∧
  (∀ body err,
     JSON_stringify credentials = Fulfilled body →
     truthy (refreshToken w) = false →
     completion (run (makeRequest "/api/auth/login" (post_options body)) w net)
       = Some (Rejected err) →
     end_world (run (login credentials) w net) = w ∧
     completion (run (login credentials) w net) = Some (Rejected err)).
Proof.
  split_and!.
  - intros e He. unfold login, run, try_catch, bind, eval. by rewrite He.
  - intros body err. apply run_login_rejected.
  - intros body err Hb Hr Hc. rewrite (run_login_rejected _ body w net err Hb Hc).
    split; [|done].
    destruct (makeRequest_end_world_cases "/api/auth/login" (post_options body) w net)
      as [Hw|[Hr' _]]; [done|congruence].
Qed.

(** X9: [login] answered 401 on a page that still holds a refresh
    credential does not report the 401: it attempts a refresh, and when
    that is refused the credentials are cleared, the page is sent to the
    login page and the caller gets [Error('Token refresh failed')]. *)
Theorem login_unauthorized_with_refresh_token (credentials body : jsval) (w : world)
    (r1 r2 : response) (net : list (outcome response)) :
  JSON_stringify credentials = Fulfilled body →
  status r1 = 401 → truthy (refreshToken w) = true → ok r2 = false →
  run (login credentials) w (Fulfilled r1 :: Fulfilled r2 :: net) =
  RunResult (set_location_href login_page (clearTokens w))
            (Some (Rejected (Error_ (JStr "Token refresh failed"))))
            [first_call "/api/auth/login" (post_options body) w; refresh_call w] net.
Proof.
  intros Hb H1 Hr Hok.
  pose proof (run_makeRequest_refresh_failed "/api/auth/login" (post_options body)
                w r1 (Fulfilled r2) _ net H1 Hr (run_refresh_not_ok w r2 net Hok)) as Hm.
  rewrite (run_login_rejected credentials body w _
             (Error_ (JStr "Token refresh failed")) Hb); [done|by rewrite Hm].
Qed.

(** A finalizer without [await] that does not throw changes the state in
    which the body completed and nothing else. *)
Lemma run_finally_update {A : Type} (t : task A) (g : world → world)
    (net : list (outcome response)) :
  run_task (finally_task t (update g)) net =
  match completion (run_task t net) with
  | Some c => RunResult (g (end_world (run_task t net))) (Some c)
                        (calls (run_task t net)) (unused (run_task t net))
  | None => run_task t net
  end.
Proof.
  revert net. induction t as [w c|w url init k IH|w r k IH]; intros net; cbn.
  - done.
  - destruct net as [|o net]; [done|].
    rewrite IH. by destruct (run_task (k o w) net) as [w' [c|] cs un].
  - apply IH.
Qed.

Lemma run_logout (w : world) (net : list (outcome response)) :
  let m := run (makeRequest "/api/auth/logout"
                  (RequestOptions None {["method" := JStr "POST"]})) w net in
  run logout w net =
  match completion m with
  | Some _ => RunResult (set_location_href login_page (clearTokens (end_world m)))
                        (Some (Fulfilled tt)) (calls m) (unused m)
  | None => RunResult (end_world m) None (calls m) (unused m)
  end.
Proof.
  cbv zeta. unfold logout, try_finally, run.
  change (bind (update clearTokens) (λ _, update (set_location_href login_page)))
    with (update (λ w, set_location_href login_page (clearTokens w))).
  rewrite run_finally_update. unfold try_catch, bind.
  rewrite run_catch_task, run_bind_task.
  destruct (run_task (makeRequest "/api/auth/logout"
              (RequestOptions None {["method" := JStr "POST"]}) w) net)
    as [w' [[a|e]|] cs un]; unfold then_run, catch_run, prepend; cbn;
    by rewrite ?app_nil_r.
Qed.

(** X10: [logout] makes at most three calls, completes once three
    replies are available, never throws, and whenever it completes both
    credentials are cleared in memory and in [localStorage] and the page
    is sent to the login page, whatever the server answered. *)
Theorem logout_always_clears (w : world) (net : list (outcome response)) :
  let res := run logout w net in
  (length (calls res) ≤ 3)%nat ∧
  ((3 ≤ length net)%nat → completion res = Some (Fulfilled tt)) ∧
  (∀ c, completion res = Some c →
     c = Fulfilled tt ∧
     token (end_world res) = JNull ∧ refreshToken (end_world res) = JNull ∧
     localStorage (end_world res) !! "access_token" = None ∧
     localStorage (end_world res) !! "refresh_token" = None ∧
     location_href (end_world res) = login_page ∧
     isAuthenticated (end_world res) = false).
Proof.
  cbv zeta. rewrite run_logout. cbv zeta.
  pose proof (makeRequest_at_most_three_calls "/api/auth/logout"
                (RequestOptions None {["method" := JStr "POST"]}) w net) as Hcalls.
  pose proof (makeRequest_completes "/api/auth/logout"
                (RequestOptions None {["method" := JStr "POST"]}) w net) as Hdone.
  destruct (run (makeRequest "/api/auth/logout"
              (RequestOptions None {["method" := JStr "POST"]})) w net)
    as [w' [c'|] cs un]; cbn in *.
  - split_and!; try done.
    intros c [= <-]. split_and!; try done.
    + rewrite lookup_delete_ne by done. apply lookup_delete_eq.
    + apply lookup_delete_eq.
  - split_and!; try done.
    intros Hlen. by destruct (Hdone Hlen).
Qed.

(** ** Durable storage and reloads *)

(** X11: a client constructed on the [localStorage] that [setTokens]
    wrote holds the string forms of both values: string credentials
    survive a reload unchanged, while an absent ([undefined]) refresh
    credential comes back as the truthy string "undefined". *)
Theorem tokens_survive_reload (a r : jsval) (w : world) (hostname href : string)
    (tm : list Z) (now : Z) :
  ∃ w', constructor hostname href (localStorage (setTokens a r w)) tm now = Fulfilled w' ∧
        token w' = JStr (ToString a) ∧
        refreshToken w' = JStr (ToString r) ∧
        (∀ s, a = JStr s → token w' = a) ∧
        (∀ s, r = JStr s → refreshToken w' = r) ∧
        (r = JUndefined → truthy (refreshToken w') = true).
Proof.
  unfold constructor.
  match goal with |- context [setupTokenRefresh now ?w0] => set (w1 := w0) end.
  assert (Ht : token w1 = JStr (ToString a) ∧ refreshToken w1 = JStr (ToString r)).
  { cbn. unfold getItem, setItem.
    rewrite lookup_insert_ne by done. by rewrite !lookup_insert_eq. }
  clearbody w1. destruct Ht as [Ht Hr].
  destruct (setupTokenRefresh_cases now w1) as [->|(d & _ & ->)];
    eexists; (split; [done|]);
    try change (token (setTimeout d w1)) with (token w1);
    try change (refreshToken (setTimeout d w1)) with (refreshToken w1);
    rewrite Ht, Hr;
    (split_and!; try done; [by intros ? ->..|by intros ->]).
Qed.

(** X12: a client constructed on the [localStorage] that [clearTokens]
    left holds no credentials and arms no timer. *)
Theorem cleared_store_survives_reload (w : world) (hostname href : string)
    (tm : list Z) (now : Z) :
  constructor hostname href (localStorage (clearTokens w)) tm now
  = Fulfilled (World (getAPIBaseURL hostname) JNull JNull
                     (localStorage (clearTokens w)) href tm).
Proof.
  unfold constructor, getItem. cbn.
  rewrite lookup_delete_eq.
  rewrite lookup_delete_ne by done. by rewrite lookup_delete_eq.
Qed.

(** X13: [setupTokenRefresh] neither throws nor arms a timer when there
    is no access credential, when the credential cannot be decoded, or
    when the payload has no numeric [exp]. *)
Theorem setupTokenRefresh_ignores_undecodable (now : Z) (w : world) :
  (truthy (token w) = false → setupTokenRefresh now w = Fulfilled w) ∧
  (∀ e, token_payload (token w) = Rejected e → setupTokenRefresh now w = Fulfilled w) ∧
  (∀ payload e, token_payload (token w) = Fulfilled payload →
     get_prop payload "exp" = Rejected e → setupTokenRefresh now w = Fulfilled w) ∧
  (∀ payload exp, token_payload (token w) = Fulfilled payload →
     get_prop payload "exp" = Fulfilled exp → ToNumber exp = None →
     setupTokenRefresh now w = Fulfilled w) ∧
  (∀ m, token_payload (token w) = Fulfilled (JObj m) → m !! "exp" = None →
     setupTokenRefresh now w = Fulfilled w).
Proof.
  unfold setupTokenRefresh. split_and!.
  - by intros ->.
  - intros e ->. by destruct (truthy (token w)).
  - intros p e -> Hp. cbn. rewrite Hp. by destruct (truthy (token w)).
  - intros p v -> Hp Hn. cbn. rewrite Hp. cbn. rewrite Hn. by destruct (truthy (token w)).
  - intros m -> Hm. cbn. rewrite Hm. by destruct (truthy (token w)).
Qed.

(** ** Page helpers *)

(** X14: [checkAuth] sends to the login page exactly the visitors
    without access credential on a path that does not contain "/auth/".
    On the login page itself it never redirects, so a redirect is not
    followed by another. *)
Theorem checkAuth_redirects_only_guests (pathname : string) (w : world) :
  (isAuthenticated w = true → checkAuth pathname w = (w, true)) ∧
  (includes pathname "/auth/" = true → checkAuth pathname w = (w, true)) ∧
  (isAuthenticated w = false → includes pathname "/auth/" = false →
     checkAuth pathname w = (set_location_href login_page w, false)) ∧
  checkAuth login_page w = (w, true) ∧
  checkAuth login_page (checkAuth pathname w).1 = ((checkAuth pathname w).1, true).
Proof.
  unfold checkAuth. split_and!.
  - by intros ->.
  - intros ->. by destruct (isAuthenticated w).
  - by intros -> ->.
  - by destruct (isAuthenticated w).
  - destruct (isAuthenticated w) eqn:Ea; cbn; [by rewrite Ea|].
    destruct (includes pathname "/auth/"); cbn; [by rewrite Ea|].
    by destruct (isAuthenticated (set_location_href login_page w)).
Qed.

Lemma loading_class_removed (cl : gset string) :
  "loading" ∉ cl → ({["loading"]} ∪ cl) ∖ {["loading"]} = cl.
Proof.
  intros Hl. apply set_eq. intros c.
  rewrite elem_of_difference, elem_of_union, elem_of_singleton.
  split; [by intros [[?|?] ?]|].
  intros Hc. split; [by right|]. by intros ->.
Qed.


(** ** A request answered 401 after the store was cleared *)

(** X16: a request in flight that is answered 401 when the page holds no
    refresh credential (any more) issues no call and leaves the shared
    state as it is: it settles, or goes on to read the body of the
    reply. *)
Theorem unauthorized_after_clear_issues_no_refresh (endpoint : string)
    (options : request_options) (w0 : world) (r : response) (i : nat)
    (p : page reply) :
  slots p !! i = Some (OnFetch (after_first endpoint options w0)) →
  truthy (refreshToken (shared p)) = false →
  let p' := deliver (Reply i (Fulfilled r)) p in
  shared p' = shared p ∧ log p' = log p ∧
  ((∃ c, slots p' = <[i := Settled c]> (slots p)) ∨
   (∃ k, slots p' = <[i := OnJson r k]> (slots p))).
Proof.
  intros Hs Hr. cbv zeta. unfold deliver. rewrite Hs.
  unfold after_first. cbn. rewrite Hr, andb_false_r.
  unfold handleResponse, bind, json, eval, throw, ret.
  destruct (match content_type r with Some ct => _ | None => _ end); cbn.
  - rewrite app_nil_r. split_and!; try done. right. by eexists.
  - destruct (negb (ok r)); cbn; rewrite app_nil_r; split_and!; try done; left; by eexists.
Qed.

(** ** Which replies are read as JSON *)

Lemma starts_with_spec (p s : string) :
  starts_with p s = true ↔ ∃ b, s = p +:+ b.
Proof.
  revert s. induction p as [|c p IH]; intros s.
  - split; [by exists s|done].
  - destruct s as [|c' s]; cbn.
    + split; [done|]. by intros [b Hb].
    + rewrite andb_true_iff, IH. split.
      * intros [Hc [b ->]]. apply Ascii.eqb_eq in Hc as ->. by exists b.
      * intros [b Hb]. change (String c p +:+ b) with (String c (p +:+ b)) in Hb.
        injection Hb as -> ->. split; [apply Ascii.eqb_refl|by exists b].
Qed.

Lemma includes_spec (s p : string) :
  includes s p = true ↔ ∃ a b, s = a +:+ p +:+ b.
Proof.
  induction s as [|c s IH].
  - cbn. rewrite orb_false_r, starts_with_spec. split.
    + intros [b Hb]. by exists "", b.
    + intros (a & b & Hab). destruct a as [|? ?]; [by exists b|done].
  - cbn [includes]. rewrite orb_true_iff, starts_with_spec, IH. split.
    + intros [[b Hb]|(a & b & ->)]; [by exists "", b|by exists (String c a), b].
    + intros (a & b & Hab). destruct a as [|c' a].
      * left. by exists b.
      * right. change (String c' a +:+ p +:+ b) with (String c' (a +:+ p +:+ b)) in Hab.
        injection Hab as -> ->. by exists a, b.
Qed.

(** X17: [handleResponse] reads a reply as JSON exactly when its
    [content-type] header contains "application/json" somewhere. *)
Theorem json_replies_by_content_type (r : response) :
  declares_json r = true ↔
  ∃ a b, content_type r = Some (a +:+ "application/json" +:+ b).
Proof.
  unfold declares_json. destruct (content_type r) as [ct|].
  - rewrite andb_true_iff, includes_spec. split.
    + intros [_ (a & b & ->)]. by exists a, b.
    + intros (a & b & [= ->]). split; [|by exists a, b].
      by destruct a.
  - split; [done|]. by intros (a & b & ?).
Qed.

(** ** Where requests go, and refresh replies without a usable body *)

Lemma makeRequest_calls_cases (endpoint : string) (options : request_options)
    (w : world) (net : list (outcome response)) :
  let cs := calls (run (makeRequest endpoint options) w net) in
  cs = [first_call endpoint options w] ∨
  cs = [first_call endpoint options w; refresh_call w] ∨
  ∃ init, cs = [first_call endpoint options w; refresh_call w;
                FetchCall (baseURL w +:+ endpoint) init].
Proof.
  cbv zeta.
  destruct net as [|[r1|e1] net]; [by left| |by left].
  destruct ((status r1 =? 401) && truthy (refreshToken w)) eqn:Hc.
  - apply andb_true_iff in Hc as [H1 Hr]. apply Z.eqb_eq in H1.
    unfold makeRequest, refreshAccessToken, run, try_catch, bind, this, fetch, eval. cbn.
    rewrite H1, Hr. cbn.
    destruct net as [|[r2|e2] net]; cbn; [by right; left| |by right; left].
    destruct (ok r2); cbn; [|by right; left].
    destruct (body_json r2) as [data|e]; cbn; [|by right; left].
    destruct (get_prop data "access_token") as [a|e]; cbn; [|by right; left].
    right. right.
    destruct net as [|[r3|e3] net]; cbn; [by eexists| |by eexists].
    rewrite run_task_rethrow.
    destruct (run_handleResponse r3 (setTokens a (refreshToken w) w) net)
      as (c & Hh & _).
    unfold run in Hh. destruct w. cbn in Hh |- *. rewrite Hh. by eexists.
  - rewrite run_makeRequest_no_refresh by done.
    destruct (run_handleResponse r1 w net) as (c & -> & _). by left.
Qed.

(** X18: every call a request makes goes to its own URL or to the
    refresh endpoint, both under [baseURL]. *)
Theorem makeRequest_calls_stay_on_api (endpoint : string) (options : request_options)
    (w : world) (net : list (outcome response)) (c : fetch_call) :
  c ∈ calls (run (makeRequest endpoint options) w net) →
  call_url c = baseURL w +:+ endpoint ∨ call_url c = baseURL w +:+ "/api/auth/refresh".
Proof.
  destruct (makeRequest_calls_cases endpoint options w net) as [->|[->|[init ->]]];
    rewrite ?elem_of_cons, elem_of_nil; intros Hc;
    repeat destruct Hc as [->|Hc]; try done; auto.
Qed.

(** X19: a refresh answered with an OK reply without a usable body.  A
    body that does not parse, or is [null], counts as a failed refresh:
    the store is cleared and the page sent to the login page.  A JSON
    object without [access_token] counts as a success: the access
    credential becomes [undefined], [isAuthenticated] is false and
    [localStorage] holds the string "undefined". *)
Theorem refresh_with_malformed_reply (w : world) (r : response)
    (net : list (outcome response)) :
  ok r = true →
  let res := run refreshAccessToken w (Fulfilled r :: net) in
  (∀ e, body_json r = Rejected e →
     completion res = Some (Rejected e) ∧
     end_world res = set_location_href login_page (clearTokens w)) ∧
  (∀ data, body_json r = Fulfilled data → data = JNull ∨ data = JUndefined →
     (∃ descr, completion res = Some (Rejected (TypeError_ descr))) ∧
     end_world res = set_location_href login_page (clearTokens w)) ∧
  (∀ m, body_json r = Fulfilled (JObj m) → m !! "access_token" = None →
     completion res = Some (Fulfilled JUndefined) ∧
     end_world res = setTokens JUndefined (refreshToken w) w ∧
     isAuthenticated (end_world res) = false ∧
     localStorage (end_world res) !! "access_token" = Some "undefined").
Proof.
  intros Hok res. subst res.
  unfold refreshAccessToken, run, try_catch, bind, this, fetch, eval. cbn.
  rewrite Hok. cbn. split_and!.
  - by intros e ->.
  - intros data -> [->| ->]; cbn; split; by eauto.
  - intros m -> Hm. cbn. rewrite Hm. cbn. split_and!; try done.
    rewrite lookup_insert_ne by done. apply lookup_insert_eq.
Qed.
End SessionFacts.

(** * Examples *)

Section Examples.
#[local] Existing Instance demo_platform.

Example split_dot_three : split_dot "h.p.s" = ["h"; "p"; "s"].
Proof. reflexivity. Qed.

Example split_dot_trailing : split_dot "h." = ["h"; ""].
Proof. reflexivity. Qed.

Example split_dot_no_dot : split_dot "opaque" !! 1%nat = None.
Proof. reflexivity. Qed.

Example includes_charset :
  includes "application/json; charset=utf-8" "application/json" = true.
Proof. reflexivity. Qed.

Example includes_html : includes "text/html" "application/json" = false.
Proof. reflexivity. Qed.

Example handleResponse_html_error :
  completion (run (handleResponse (Response 502 "Bad Gateway" (Some "text/html")
                                            (Rejected (SyntaxError_ "Unexpected token"))))
                  demo_world [])
  = Some (Rejected (Error_ (JStr "HTTP 502: Bad Gateway"))).
Proof. reflexivity. Qed.

Example getCurrentUserId_opaque_token :
  getCurrentUserId (set_token (JStr "opaque") demo_world) = Fulfilled JNull.
Proof. reflexivity. Qed.


(** C2 fails on the code: two requests issued together whose first
    replies are both 401 make two refresh calls, and both complete. *)
Lemma two_requests_two_refreshes :
  let p := play demo_schedule (spawn_all demo_requests (Page demo_world [] [])) in
  slots p = [Settled (Fulfilled (Parsed (JObj {["name" := JStr "Ada"]})));
             Settled (Fulfilled (Parsed (JObj {["name" := JStr "Ada"]})))] ∧
  refresh_calls demo_world (log p) = 2%nat ∧
  ¬ (refresh_calls demo_world (log p) = 1%nat).
Proof. vm_compute. split_and!; [reflexivity|reflexivity|discriminate]. Qed.

(** The amended C2 at two requests, the second answered first. *)
Lemma no_single_flight_witness :
  let p := play (replies [(1%nat, unauthorized); (0%nat, unauthorized)])
                (spawn_all demo_requests (Page demo_world [] [])) in
  truthy (refreshToken demo_world) = true ∧
  length demo_requests = 2%nat ∧
  refresh_calls demo_world (log p) = 2%nat.
Proof.
  split_and!; [reflexivity..|].
  destruct (no_single_flight demo_world demo_requests
              [(1%nat, unauthorized); (0%nat, unauthorized)])
    as (_ & _ & _ & _ & Hn).
  - reflexivity.
  - apply (bool_decide_unpack _). reflexivity.
  - repeat constructor; cbn; lia.
  - apply Hn; [|reflexivity]. repeat constructor; discriminate.
Defined.

(** C3 fails on the code: after a 401 without a refresh credential the
    access credential is still in memory and in [localStorage]. *)
Lemma unauthorized_without_refresh_keeps_credentials :
  let res := run (makeRequest "/api/user/profile" no_options) demo_world_no_refresh
                 [Fulfilled unauthorized] in
  status unauthorized = 401 ∧ truthy (refreshToken demo_world_no_refresh) = false ∧
  completion res = Some (Rejected (Error_ (JStr "Token has expired"))) ∧
  token (end_world res) = JStr token_A ∧
  localStorage (end_world res) !! "access_token" = Some token_A ∧
  ¬ (token (end_world res) = JNull ∧
     localStorage (end_world res) !! "access_token" = None).
Proof.
  vm_compute. split_and!; try reflexivity. intros [? _]. discriminate.
Qed.

(** The amended C3 at a 401 reply that declares JSON and whose body does
    not parse: one call, the page as it was, and the caller gets the parse
    error of [response.json()]. *)
Lemma unauthorized_without_refresh_token_witness :
  let res := run (makeRequest "/api/user/profile" no_options) demo_world_no_refresh
                 [Fulfilled malformed_unauthorized] in
  status malformed_unauthorized = 401 ∧
  truthy (refreshToken demo_world_no_refresh) = false ∧
  end_world res = demo_world_no_refresh ∧
  length (calls res) = 1%nat ∧
  completion res = Some (Rejected (SyntaxError_ "Unexpected end of JSON input")).
Proof.
  destruct (unauthorized_without_refresh_token "/api/user/profile" no_options
              demo_world_no_refresh malformed_unauthorized [])
    as (Hw & Hc & _ & _ & _ & _ & He & _); try reflexivity.
  cbv zeta. rewrite Hc.
  split; [reflexivity|]. split; [reflexivity|]. split; [assumption|].
  split; [reflexivity|]. apply He; reflexivity.
Defined.

(** C4 fails on the code: with the expiry at now + margin - 1 second the
    trigger time is one second in the past, and [setupTokenRefresh] leaves
    the page as it was: no timer, no refresh. *)
Lemma late_credential_is_skipped :
  token_payload (token demo_world) = Fulfilled payload_A ∧
  get_prop payload_A "exp" = Fulfilled (JNum 1000) ∧
  1000 * 1000 = 701000 + 5 * 60 * 1000 - 1000 ∧
  setupTokenRefresh 701000 demo_world = Fulfilled demo_world ∧
  ¬ (∃ w d, setupTokenRefresh 701000 demo_world = Fulfilled w ∧ d ∈ timers w).
Proof.
  split_and!; [reflexivity..|].
  intros (w & d & Hw & Hd). vm_compute in Hw.
  injection Hw as <-. cbn in Hd. by apply elem_of_nil in Hd.
Qed.

(** The amended C4 at the same input. *)
Lemma setupTokenRefresh_skips_past_trigger_witness :
  1000 * 1000 - 5 * 60 * 1000 ≤ 701000 ∧
  setupTokenRefresh 701000 demo_world = Fulfilled demo_world.
Proof.
  split; [lia|].
  apply (proj1 (setupTokenRefresh_skips_past_trigger 701000 demo_world)
               payload_A (JNum 1000) 1000); [reflexivity..|lia].
Defined.

(** C5 fails on the code: the constructor arms a timer for [token_A];
    installing [token_B], whose trigger time is in the future, leaves that
    timer outstanding and arms none for [token_B]. *)
Lemma setTokens_keeps_old_timer :
  ∃ w, constructor "app.evergrow360.com" "/app/dashboard.html" demo_storage [] 100000
       = Fulfilled w ∧
       timers w = [600000] ∧
       token_payload (JStr token_B) = Fulfilled payload_B ∧
       get_prop payload_B "exp" = Fulfilled (JNum 4000) ∧
       100000 < 4000 * 1000 - 5 * 60 * 1000 ∧
       timers (setTokens (JStr token_B) (JStr "R1") w) = [600000] ∧
       timers (setTokens (JStr token_B) (JStr "R1") w)
         ≠ [4000 * 1000 - 5 * 60 * 1000 - 100000].
Proof.
  eexists. split; [reflexivity|]. vm_compute.
  split_and!; try reflexivity. discriminate.
Qed.

(** The amended C5 at the construction of the client. *)
Lemma scheduling_only_at_construction_witness :
  0 ≤ 100000 ∧ 1000 * 1000 ≤ 2 ^ 53 ∧
  100000 < 1000 * 1000 - 5 * 60 * 1000 ∧
  ∃ w, constructor "app.evergrow360.com" "/app/dashboard.html" demo_storage [] 100000
       = Fulfilled w ∧ timers w = [] ++ [1000 * 1000 - 5 * 60 * 1000 - 100000].
Proof.
  split; [lia|]. split; [lia|]. split; [lia|].
  apply (proj2 (proj2 (proj2 scheduling_only_at_construction))
           "app.evergrow360.com" "/app/dashboard.html" demo_storage [] 100000
           payload_A (JNum 1000) 1000); [reflexivity| reflexivity| reflexivity
                                         | reflexivity| lia| lia| lia].
Defined.

(** C6 at a refresh that is answered with 401. *)
Lemma refresh_failure_clears_store_witness :
  let res := run refreshAccessToken demo_world [Fulfilled unauthorized] in
  status unauthorized = 401 ∧
  completion res = Some (Rejected (Error_ (JStr "Token refresh failed"))) ∧
  token (end_world res) = JNull ∧ refreshToken (end_world res) = JNull ∧
  localStorage (end_world res) !! "access_token" = None ∧
  localStorage (end_world res) !! "refresh_token" = None ∧
  location_href (end_world res) = login_page.
Proof.
  destruct (refresh_failure_clears_store demo_world (Fulfilled unauthorized) [])
    as (_ & _ & Hclear & _ & _ & H401 & _).
  pose proof (H401 unauthorized eq_refl eq_refl) as Hc.
  destruct (Hclear _ Hc) as (_ & Ht & Hr & Ha & Hf & Hh).
  cbv zeta. split_and!; try assumption. reflexivity.
Defined.

(** C8 fails on the code for a credential that is not a well-formed
    token but decodes: the second piece of [token_S] is the base64 text of
    the JSON string "abc", so [payload.sub] is the method [sub] that every
    string inherits from [String.prototype], and this function, not
    [null], is what [getCurrentUserId] returns. *)
Lemma string_payload_returns_method :
  let w := set_token (JStr token_S) demo_world in
  @token_payload string_payload_platform (token w) = Fulfilled (JStr "abc") ∧
  @getCurrentUserId string_payload_platform w
    = Fulfilled (JNative "String.prototype.sub") ∧
  @getCurrentUserId string_payload_platform w ≠ Fulfilled JNull ∧
  @getCurrentUserId string_payload_platform w ≠ Fulfilled JUndefined.
Proof.
  vm_compute. split_and!; [reflexivity|reflexivity|discriminate|discriminate].
Qed.

(** C8 at a stored credential whose payload has [sub] "u42". *)
Lemma getCurrentUserId_never_raises_witness :
  truthy (token demo_world) = true ∧
  token_payload (token demo_world) = Fulfilled payload_A ∧
  getCurrentUserId demo_world = Fulfilled (JStr "u42").
Proof.
  split_and!; [reflexivity..|].
  destruct (getCurrentUserId_never_raises demo_world) as (_ & _ & _ & _ & Hsub & _).
  apply (Hsub payload_A); reflexivity.
Defined.

(** C9 fails on the code when the page changes while a refresh is in
    flight.  Two requests are answered 401 and each starts a refresh with
    the stored credential "R0".  The first refresh is refused, which clears
    the store; the second one succeeds afterwards and installs the new
    access credential "A2" together with the refresh credential it finds,
    [null]: the instance is left without refresh credential and
    [localStorage] holds the string "null" in its place. *)
Lemma refresh_after_clear_installs_null :
  let p0 := spawn_all demo_requests (Page demo_world [] []) in
  let p := play [Reply 0 (Fulfilled unauthorized); Reply 1 (Fulfilled unauthorized);
                 Reply 0 (Fulfilled unauthorized);
                 Reply 1 (Fulfilled (refreshed "A2")); BodyRead 1] p0 in
  refreshToken (shared p0) = JStr "R0" ∧
  localStorage (shared p0) !! "refresh_token" = Some "R0" ∧
  (∃ c, log p !! 3%nat = Some c ∧
        call_url c = "https://api.evergrow360.com/api/auth/refresh" ∧
        init_headers (call_init c) !! "Authorization" = Some "Bearer R0") ∧
  ok (refreshed "A2") = true ∧
  token (shared p) = JStr "A2" ∧
  localStorage (shared p) !! "access_token" = Some "A2" ∧
  refreshToken (shared p) = JNull ∧
  localStorage (shared p) !! "refresh_token" = Some "null" ∧
  refreshToken (shared p) ≠ refreshToken (shared p0).
Proof.
  vm_compute. split_and!; try reflexivity.
  - eexists. split_and!; reflexivity.
  - discriminate.
Qed.

(** The amended C9 at a refresh to "A1" that runs alone. *)
Lemma refresh_keeps_refresh_token_witness :
  let res := run refreshAccessToken demo_world [Fulfilled (refreshed "A1")] in
  completion res = Some (Fulfilled (JStr "A1")) ∧
  refreshToken (end_world res) = JStr "R0" ∧
  token (end_world res) = JStr "A1" ∧
  localStorage (end_world res) !! "refresh_token" = Some "R0".
Proof.
  destruct (refresh_keeps_refresh_token demo_world) as (k1 & _ & _ & _ & Hrun).
  destruct (Hrun (Fulfilled (refreshed "A1")) [] (JStr "A1") eq_refl)
    as (Hr & Ht & _ & _ & Hs).
  cbv zeta. split; [reflexivity|]. split; [exact Hr|]. split; [exact Ht|].
  apply (Hs "R0"); reflexivity.
Defined.

(** C10 fails on the code in both halves.  With a credential stored, a
    caller's header spelled [authorization] is not overridden: the headers
    handed to [fetch] carry it next to the bearer entry.  Without a
    credential, a caller's [Authorization] given in a [Headers] instance is
    not passed through: the spread copies nothing from it. *)
Lemma caller_authorization_not_owned :
  let lower_case := options_with (HeadersObject {["authorization" := "Basic abc"]}) ∅ in
  let instance := options_with (HeadersInstance [("Authorization", "Basic abc")]) ∅ in
  truthy (token demo_world) = true ∧
  names_header "Authorization" "authorization" = true ∧
  (∃ c, calls (run (makeRequest "/api/user/profile" lower_case) demo_world []) = [c] ∧
        init_headers (call_init c) !! "authorization" = Some "Basic abc" ∧
        init_headers (call_init c) !! "Authorization" = Some ("Bearer " +:+ token_A)) ∧
  truthy (token (clearTokens demo_world)) = false ∧
  (∃ c, calls (run (makeRequest "/api/user/profile" instance)
                   (clearTokens demo_world) []) = [c] ∧
        init_headers (call_init c) = {["Content-Type" := "application/json"]} ∧
        ∀ k, names_header "Authorization" k = true →
             init_headers (call_init c) !! k = None).
Proof.
  cbv zeta. split; [reflexivity|]. split; [reflexivity|].
  split; [eexists; split; [reflexivity|]; split; reflexivity|].
  split; [reflexivity|].
  eexists. split; [reflexivity|]. split; [reflexivity|].
  intros k Hk. cbn.
  destruct (decide (k = "Content-Type")) as [->|Hne]; [discriminate Hk|].
  rewrite lookup_union, lookup_empty, lookup_singleton_ne by done. done.
Qed.

(** The amended C10 at a caller that passes [Authorization: Basic abc],
    with and without a stored access credential. *)
Lemma authorization_header_ownership_witness :
  truthy (token demo_world) = true ∧
  opt_headers demo_options = Some {["Authorization" := "Basic abc"]} ∧
  (∃ c, calls (run (makeRequest "/api/user/profile" demo_options) demo_world []) = [c] ∧
        init_headers (call_init c) !! "Authorization" = Some ("Bearer " +:+ token_A)) ∧
  truthy (token (clearTokens demo_world)) = false ∧
  (∃ c, calls (run (makeRequest "/api/user/profile" demo_options)
                   (clearTokens demo_world) []) = [c] ∧
        init_headers (call_init c) !! "Authorization" = Some "Basic abc").
Proof.
  split; [reflexivity|]. split; [reflexivity|]. split; [|split; [reflexivity|]].
  - destruct (authorization_header_ownership "/api/user/profile" demo_options demo_world)
      as (c & Hc & _ & Hbearer & _).
    exists c. split; [exact Hc|]. apply Hbearer. reflexivity.
  - destruct (authorization_header_ownership "/api/user/profile" demo_options
                (clearTokens demo_world)) as (c & Hc & _ & _ & _ & Hpass & _).
    exists c. split; [exact Hc|]. rewrite Hpass; reflexivity.
Defined.
End Examples.

(** * Examples for the further properties *)

Section SessionExamples.
#[local] Existing Instance demo_platform.
#[local] Existing Instance demo_serializer.

(** X1 at [token_A] against the same payload under another header and
    signature. *)
Lemma token_payload_reads_second_piece_witness :
  no_dot "h" = true ∧ no_dot "eyJleHAiOjEwMDAsInN1YiI6InU0MiJ9" = true ∧
  token_payload (JStr token_A) = Fulfilled payload_A ∧
  getCurrentUserId
    (set_token (JStr ("x" +:+ "." +:+ "eyJleHAiOjEwMDAsInN1YiI6InU0MiJ9" +:+ "." +:+ "forged"))
               demo_world)
  = getCurrentUserId demo_world.
Proof.
  destruct (token_payload_reads_second_piece "h" "eyJleHAiOjEwMDAsInN1YiI6InU0MiJ9" "s")
    as (H3 & _ & Hid); [reflexivity..|].
  split_and!; [reflexivity..| |].
  - exact H3.
  - apply Hid; reflexivity.
Defined.

(** X2 at a profile request answered 200. *)
Lemma makeRequest_returns_body_witness :
  ok profile_ok = true ∧ declares_json profile_ok = true ∧
  completion (run (makeRequest "/api/user/profile" no_options) demo_world
                  [Fulfilled profile_ok])
  = Some (Fulfilled (Parsed (JObj {["name" := JStr "Ada"]}))).
Proof.
  split_and!; [reflexivity..|].
  destruct (makeRequest_returns_body "/api/user/profile" no_options demo_world
              profile_ok []) as (_ & _ & _ & Hbody & _); [reflexivity|].
  apply Hbody; reflexivity.
Defined.

(** X3 at a request answered 500 on a page with a refresh credential. *)
Lemma makeRequest_other_failures_not_retried_witness :
  ok server_error = false ∧ status server_error ≠ 401 ∧
  ∃ err, run (makeRequest "/api/user/profile" no_options) demo_world
             [Fulfilled server_error]
         = RunResult demo_world (Some (Rejected err))
                     [first_call "/api/user/profile" no_options demo_world] [].
Proof.
  split_and!; [reflexivity|discriminate|].
  apply (proj2 (makeRequest_other_failures_not_retried "/api/user/profile" no_options
                  demo_world [])); [reflexivity|discriminate].
Defined.

(** X4 at the reply "Invalid credentials". *)
Lemma handleResponse_failure_witness :
  ok invalid_credentials = false ∧ declares_json invalid_credentials = true ∧
  completion (run (handleResponse invalid_credentials) demo_world [])
  = Some (Rejected (Error_ (JStr "Invalid credentials"))).
Proof.
  split_and!; [reflexivity..|].
  destruct (handleResponse_failure invalid_credentials demo_world [])
    as (Hobj & _); [reflexivity|].
  destruct (Hobj {["message" := JStr "Invalid credentials"]}) as [Hc _];
    [reflexivity..|].
  exact Hc.
Defined.

(** X5 on a page without refresh credential. *)
Lemma makeRequest_frame_witness :
  truthy (refreshToken demo_world_no_refresh) = false ∧
  end_world (run (makeRequest "/api/user/profile" no_options) demo_world_no_refresh
                 [Fulfilled unauthorized])
  = demo_world_no_refresh.
Proof.
  split; [reflexivity|].
  apply (makeRequest_frame "/api/user/profile" no_options demo_world_no_refresh
           [Fulfilled unauthorized]). reflexivity.
Defined.


(** X7 at a login answered 200 without a session. *)
Lemma login_without_token_keeps_store_witness :
  JSON_stringify demo_credentials = Fulfilled demo_credentials_text ∧
  ok pending_reply = true ∧ declares_json pending_reply = true ∧
  end_world (run (login demo_credentials) demo_world_no_refresh [Fulfilled pending_reply])
  = demo_world_no_refresh.
Proof.
  split_and!; [reflexivity..|].
  destruct (login_without_token_keeps_store demo_credentials demo_credentials_text
              demo_world_no_refresh pending_reply []) as (_ & Hfalsy);
    [reflexivity..|].
  rewrite (Hfalsy (JObj {["message" := JStr "Check your inbox"]}) JUndefined);
    reflexivity.
Defined.

(** X8 at a login refused on a page without refresh credential. *)
Lemma login_failure_propagates_witness :
  JSON_stringify demo_credentials = Fulfilled demo_credentials_text ∧
  truthy (refreshToken demo_world_no_refresh) = false ∧
  end_world (run (login demo_credentials) demo_world_no_refresh
                 [Fulfilled invalid_credentials]) = demo_world_no_refresh ∧
  completion (run (login demo_credentials) demo_world_no_refresh
                  [Fulfilled invalid_credentials])
  = Some (Rejected (Error_ (JStr "Invalid credentials"))).
Proof.
  split_and!; [reflexivity..| |];
    apply (proj2 (proj2 (login_failure_propagates demo_credentials demo_world_no_refresh
                           [Fulfilled invalid_credentials]))
             demo_credentials_text (Error_ (JStr "Invalid credentials")));
    reflexivity.
Defined.

(** X9 at the same login on a page that holds a refresh credential. *)
Lemma login_unauthorized_with_refresh_token_witness :
  status invalid_credentials = 401 ∧ truthy (refreshToken demo_world) = true ∧
  ok unauthorized = false ∧
  completion (run (login demo_credentials) demo_world
                  [Fulfilled invalid_credentials; Fulfilled unauthorized])
  = Some (Rejected (Error_ (JStr "Token refresh failed"))).
Proof.
  split_and!; [reflexivity..|].
  rewrite (login_unauthorized_with_refresh_token demo_credentials demo_credentials_text
             demo_world invalid_credentials unauthorized []); reflexivity.
Defined.

(** X10 at a logout whose request finds the server unreachable. *)
Lemma logout_always_clears_witness :
  completion (run logout demo_world [Rejected (TypeError_ "Failed to fetch")])
    = Some (Fulfilled tt) ∧
  token (end_world (run logout demo_world [Rejected (TypeError_ "Failed to fetch")]))
    = JNull ∧
  location_href (end_world (run logout demo_world [Rejected (TypeError_ "Failed to fetch")]))
    = login_page.
Proof.
  destruct (logout_always_clears demo_world [Rejected (TypeError_ "Failed to fetch")])
    as (_ & _ & Hclear).
  destruct (Hclear (Fulfilled tt) eq_refl) as (_ & Ht & _ & _ & _ & Hh & _).
  split_and!; [reflexivity|exact Ht|exact Hh].
Defined.

(** X11 at a session stored without refresh credential. *)
Lemma tokens_survive_reload_witness :
  ∃ w, constructor "app.evergrow360.com" "/app/dashboard.html"
         (localStorage (setTokens (JStr token_B) JUndefined demo_world)) [] 100000
       = Fulfilled w ∧
       token w = JStr token_B ∧ refreshToken w = JStr "undefined" ∧
       truthy (refreshToken w) = true.
Proof.
  destruct (tokens_survive_reload (JStr token_B) JUndefined demo_world
              "app.evergrow360.com" "/app/dashboard.html" [] 100000)
    as (w & Hw & Ht & Hr & _ & _ & Hu).
  exists w. split_and!; [exact Hw|exact Ht|exact Hr|by apply Hu].
Defined.

(** X13 at a credential that is not a token. *)
Lemma setupTokenRefresh_ignores_undecodable_witness :
  token_payload (JStr "opaque") = Rejected (DOMException_ "InvalidCharacterError") ∧
  setupTokenRefresh 100000 (set_token (JStr "opaque") demo_world)
  = Fulfilled (set_token (JStr "opaque") demo_world).
Proof.
  split; [reflexivity|].
  apply (proj1 (proj2 (setupTokenRefresh_ignores_undecodable 100000
                         (set_token (JStr "opaque") demo_world)))
           (DOMException_ "InvalidCharacterError")).
  reflexivity.
Defined.

(** X14 at a visitor without credentials on the dashboard. *)
Lemma checkAuth_redirects_only_guests_witness :
  isAuthenticated (clearTokens demo_world) = false ∧
  includes "/app/dashboard/index.html" "/auth/" = false ∧
  checkAuth "/app/dashboard/index.html" (clearTokens demo_world)
  = (set_location_href login_page (clearTokens demo_world), false).
Proof.
  split_and!; [reflexivity..|].
  apply (checkAuth_redirects_only_guests "/app/dashboard/index.html"
           (clearTokens demo_world)); reflexivity.
Defined.


(** X16 at a request issued while no refresh credential is stored. *)
Lemma unauthorized_after_clear_issues_no_refresh_witness :
  let p := spawn (makeRequest "/api/user/profile" no_options)
                 (Page demo_world_no_refresh [] []) in
  truthy (refreshToken (shared p)) = false ∧
  log (deliver (Reply 0 (Fulfilled unauthorized)) p) = log p.
Proof.
  cbv zeta. split; [reflexivity|].
  apply (unauthorized_after_clear_issues_no_refresh "/api/user/profile" no_options
           demo_world_no_refresh unauthorized 0); reflexivity.
Defined.

(** X17 at a content type with a charset. *)
Lemma json_replies_by_content_type_witness :
  declares_json empty_refresh_reply = true.
Proof.
  apply (proj2 (json_replies_by_content_type empty_refresh_reply)).
  by exists "", "; charset=utf-8".
Defined.

(** X18 at the retried request of a run with a refresh. *)
Lemma makeRequest_calls_stay_on_api_witness :
  let net := [Fulfilled unauthorized; Fulfilled (refreshed "A1"); Fulfilled profile_ok] in
  refresh_call demo_world
    ∈ calls (run (makeRequest "/api/user/profile" no_options) demo_world net) ∧
  call_url (refresh_call demo_world) = "https://api.evergrow360.com/api/auth/refresh".
Proof.
  cbv zeta.
  assert (Hin : refresh_call demo_world
                ∈ calls (run (makeRequest "/api/user/profile" no_options) demo_world
                             [Fulfilled unauthorized; Fulfilled (refreshed "A1");
                              Fulfilled profile_ok])).
  { apply list_elem_of_lookup. exists 1%nat. reflexivity. }
  split; [exact Hin|].
  destruct (makeRequest_calls_stay_on_api "/api/user/profile" no_options demo_world _ _ Hin)
    as [Hc|Hc]; [discriminate Hc|exact Hc].
Defined.

(** X19 at a refresh answered with an empty object. *)
Lemma refresh_with_malformed_reply_witness :
  ok empty_refresh_reply = true ∧
  completion (run refreshAccessToken demo_world [Fulfilled empty_refresh_reply])
    = Some (Fulfilled JUndefined) ∧
  isAuthenticated (end_world (run refreshAccessToken demo_world
                                  [Fulfilled empty_refresh_reply])) = false.
Proof.
  split; [reflexivity|].
  destruct (refresh_with_malformed_reply demo_world empty_refresh_reply [])
    as (_ & _ & Hobj); [reflexivity|].
  destruct (Hobj ∅) as (Hc & _ & Ha & _); [reflexivity..|].
  split; [exact Hc|exact Ha].
Defined.

End SessionExamples.
